(** * Rental-price workflow: the cleaning stage and the training stage

    A shallow embedding of [src/basic_cleaning/run.py] and
    [src/train_random_forest/run.py], and the properties of the
    specification that are about them.

    Conventions of the embedding.
    - A Python call that may raise returns a [result]: [Ok v] or
      [Raise e], threaded with [let*].
    - A pandas data frame is a header and a list of rows; a cell holds a
      float64 (integer and boolean columns are read as numbers) or a string,
      and a missing value is the float NaN, as in pandas.
    - float64 values are Rocq's primitive binary64 floats, so comparisons
      (the only float operation the cleaning stage performs) are the IEEE
      ones, NaN included.
    - Library code (pandas' date parser, the json parser, the scikit-learn
      encoders, the splitter) is taken as a parameter of the section that
      uses it. *)

From Stdlib Require Import ZArith QArith List Bool String Ascii Floats Uint63 Lia.
From stdpp Require Import gmap strings.
Import ListNotations.

Set Warnings "-inexact-float,-register-all".
Local Open Scope string_scope.
Local Open Scope list_scope.

(** ** Exceptions and results *)

Inductive exn : Type :=
| KeyError (key : string)
| TypeError
| ValueError
| FileNotFoundError (path : string)
| JSONDecodeError
| SystemExit.

Inductive result (A : Type) : Type :=
| Ok (a : A)
| Raise (e : exn).

Arguments Ok {A} a.
Arguments Raise {A} e.

Definition bind {A B : Type} (m : result A) (k : A -> result B) : result B :=
  match m with
  | Ok a => k a
  | Raise e => Raise e
  end.

Notation "'let*' x ':=' m 'in' k" := (bind m (fun x => k))
  (at level 10, x name, m at level 100, k at level 200).

Fixpoint mapM {A B : Type} (f : A -> result B) (l : list A) : result (list B) :=
  match l with
  | [] => Ok []
  | x :: l' =>
      let* y := f x in
      let* ys := mapM f l' in
      Ok (y :: ys)
  end.


(** ** The fragment of pandas the two stages use *)

Module Pandas.

Inductive cell : Type :=
| Num (x : float)
| Str (s : string).

(** The missing value: [numpy.nan]. *)
Definition NA : cell := Num PrimFloat.nan.

(** [pd.isna] on one cell. *)
Definition isna (c : cell) : bool :=
  match c with
  | Num x => PrimFloat.is_nan x
  | Str _ => false
  end.

Definition notna (c : cell) : bool := negb (isna c).

Definition Series : Type := list cell.
Definition Row : Type := list cell.

Record DataFrame : Type := mkDataFrame {
  columns : list string;
  rows : list Row
}.

(** Position of a column label in the header. *)
Fixpoint get_loc (col : string) (cols : list string) : option nat :=
  match cols with
  | [] => None
  | c :: cols' =>
      if String.eqb c col then Some 0%nat
      else option_map S (get_loc col cols')
  end.

(** The cell of row [r] at position [i]; a row that stops early is
    padded with missing values, as [read_csv] does. *)
Definition iloc (r : Row) (i : nat) : cell := nth i r NA.

(** [df[col]]: the column as a series, or [KeyError]. *)
Definition getitem (df : DataFrame) (col : string) : result Series :=
  match get_loc col (columns df) with
  | None => Raise (KeyError col)
  | Some i => Ok (map (fun r => iloc r i) (rows df))
  end.

(** [series >= v] and [series <= v] for a float [v]: elementwise, NaN
    compares false, and a string cell raises [TypeError]. *)
Definition cmp_scalar (op : float -> bool) (s : Series) : result (list bool) :=
  mapM (fun c => match c with
                 | Num x => Ok (op x)
                 | Str _ => Raise TypeError
                 end) s.

Definition ge (s : Series) (v : float) : result (list bool) :=
  cmp_scalar (fun x => PrimFloat.leb v x) s.

Definition le (s : Series) (v : float) : result (list bool) :=
  cmp_scalar (fun x => PrimFloat.leb x v) s.

(** [lmask & rmask] on boolean series. *)
Definition mask_and (l r : list bool) : list bool :=
  map (fun p => andb (fst p) (snd p)) (combine l r).

(** [Series.between(left, right)], both ends inclusive:
    [(self >= left) & (self <= right)]. *)
Definition between (s : Series) (left right : float) : result (list bool) :=
  let* lmask := ge s left in
  let* rmask := le s right in
  Ok (mask_and lmask rmask).

(** [df[mask]]: the rows whose mask entry is [True], in order. *)
Definition select (mask : list bool) (df : DataFrame) : DataFrame :=
  {| columns := columns df;
     rows := map snd (List.filter fst (combine mask (rows df))) |}.

(** [df.dropna()]: keep the rows that have no missing value in any
    column of the header. *)
Definition complete (ncols : nat) (r : Row) : bool :=
  forallb (fun i => notna (iloc r i)) (seq 0 ncols).

Definition dropna (df : DataFrame) : DataFrame :=
  select (map (complete (length (columns df))) (rows df)) df.

(** The vocabulary of the properties: a cell that holds a number, a
    number within two inclusive bounds, and the cell of a row under a
    column label. *)
Definition is_num (c : cell) : bool :=
  match c with
  | Num _ => true
  | Str _ => false
  end.

Definition in_range (left right : float) (c : cell) : bool :=
  match c with
  | Num x => PrimFloat.leb left x && PrimFloat.leb x right
  | Str _ => false
  end.

Definition cell_of (df : DataFrame) (r : Row) (col : string) : option cell :=
  option_map (iloc r) (get_loc col (columns df)).

End Pandas.

(** ** [src/basic_cleaning/run.py] *)

Module BasicCleaning.
Import Pandas.

(** The bounding box of lines 47: the literals are read as binary64, as
    Python reads them. *)
Definition lon_min : float := (-74.25)%float.
Definition lon_max : float := (-73.50)%float.
Definition lat_min : float := 40.5%float.
Definition lat_max : float := 41.2%float.

(** Lines 39: the price filter. *)
Definition price_filter (min_price max_price : float) (df : DataFrame)
  : result DataFrame :=
  let* price := getitem df "price" in
  let* mask := between price min_price max_price in
  Ok (select mask df).

(** Lines 47-48: the geographic filter. *)
Definition geo_filter (df : DataFrame) : result DataFrame :=
  let* lon := getitem df "longitude" in
  let* lon_mask := between lon lon_min lon_max in
  let* lat := getitem df "latitude" in
  let* lat_mask := between lat lat_min lat_max in
  let idx := mask_and lon_mask lat_mask in
  Ok (select idx df).

(** [go], lines 32-49, from the frame [read_csv] returned to the frame
    handed to [to_csv]. The tracking service and the artifact store do
    not touch the frame. *)
Definition go (min_price max_price : float) (df : DataFrame)
  : result DataFrame :=
  let* df := price_filter min_price max_price df in
  let df := dropna df in
  geo_filter df.

(** The rows [go] keeps, said in one predicate on a row: [ip], [ilon]
    and [ilat] are the positions of the three columns in the header and
    [n] is its width. *)
Definition in_box (ilon ilat : nat) (r : Row) : bool :=
  in_range lon_min lon_max (iloc r ilon)
  && in_range lat_min lat_max (iloc r ilat).

Definition kept (min_price max_price : float) (n ip ilon ilat : nat) (r : Row)
  : bool :=
  in_range min_price max_price (iloc r ip)
  && complete n r
  && in_box ilon ilat r.

End BasicCleaning.

(** ** [src/train_random_forest/run.py] *)

Module TrainRandomForest.
Import Pandas.

(** *** Arrays *)

(** A 2-D array is the list of its rows. *)
Definition Matrix : Type := list Row.

Definition heads {A : Type} (ls : list (list A)) : list A :=
  flat_map (fun r => firstn 1 r) ls.

(** [transpose n ls]: the first [n] columns of the rows [ls], each as a
    list. It turns rows into columns and columns into rows. *)
Fixpoint transpose {A : Type} (n : nat) (ls : list (list A)) : list (list A) :=
  match n with
  | O => []
  | S k => heads ls :: transpose k (map (skipn 1) ls)
  end.

Definition ncols {A : Type} (ls : list (list A)) : nat :=
  match ls with
  | [] => O
  | r :: _ => length r
  end.

(** A single-column 2-D array: one value per row. *)
Definition column {A : Type} (s : list A) : list (list A) :=
  map (fun x => [x]) s.

(** *** Lines 27-33: [delta_date_feature] *)

(** A datetime64[ns] value: nanoseconds since the epoch, or NaT. *)
Inductive Timestamp : Type :=
| NaT
| TS (ns : Z).

Definition ns_per_day : Z := 86400000000000.


(** [Series.max()] skips NaT and is NaT on a series with nothing else. *)
Definition ts_max (a b : Timestamp) : Timestamp :=
  match a, b with
  | NaT, _ => b
  | _, NaT => a
  | TS x, TS y => TS (Z.max x y)
  end.

Definition series_max (d : list Timestamp) : Timestamp :=
  fold_right ts_max NaT d.

(** [m - x]: a timedelta in nanoseconds, NaT when either side is. *)
Definition ts_sub (m x : Timestamp) : option Z :=
  match m, x with
  | TS a, TS b => Some (a - b)%Z
  | _, _ => None
  end.

(** [.dt.days]: the days component, which is the floor of the
    timedelta over one day; NaT gives NaN, written [None]. *)
Definition dt_days (td : option Z) : option Z :=
  option_map (fun ns => (ns / ns_per_day)%Z) td.

(** [lambda d: (d.max() - d).dt.days] *)
Definition delta_days (d : list Timestamp) : list (option Z) :=
  let m := series_max d in
  map (fun x => dt_days (ts_sub m x)) d.

Section DeltaDate.
(** [pd.to_datetime] on one value; it raises on what it cannot read. *)
Variable to_datetime_scalar : cell -> result Timestamp.

Definition to_datetime (s : Series) : result (list Timestamp) :=
  mapM to_datetime_scalar s.

Definition delta_date_feature (dates : Matrix)
  : result (list (list (option Z))) :=
  (* pd.DataFrame(dates).apply(pd.to_datetime) *)
  let* date_sanitized := mapM to_datetime (transpose (ncols dates) dates) in
  (* .apply(lambda d: (d.max() - d).dt.days, axis=0).to_numpy() *)
  Ok (transpose (length dates) (map delta_days date_sanitized)).

End DeltaDate.

(** *** Lines 112-124: [plot_feature_importance] *)

(** Python's [l[:k]] and [l[k:]]: a negative bound counts from the end,
    and a bound outside the list is clipped. *)
Definition slice_bound (len : nat) (k : Z) : nat :=
  Z.to_nat (if (k <? 0)%Z then Z.max 0 (Z.of_nat len + k)
            else Z.min k (Z.of_nat len)).

Definition slice_to {A : Type} (l : list A) (k : Z) : list A :=
  firstn (slice_bound (length l) k) l.

Definition slice_from {A : Type} (l : list A) (k : Z) : list A :=
  skipn (slice_bound (length l) k) l.

(** Python's [sum]: from 0, left to right. Importances are float64 in
    numpy; they are exact rationals here, so a sum is the sum of the
    numbers, without rounding. *)
Definition py_sum (l : list Q) : Q := fold_left Qplus l 0%Q.

(** What the chart holds. *)
Record Axes : Type := mkAxes {
  bars : list (nat * Q);
  xticks : list nat;
  xticklabels : list string;
  rotation : Z
}.

Definition subplots : Axes :=
  {| bars := []; xticks := []; xticklabels := []; rotation := 0%Z |}.

Definition bar (ax : Axes) (x : list nat) (height : list Q) : Axes :=
  {| bars := combine x height; xticks := xticks ax;
     xticklabels := xticklabels ax; rotation := rotation ax |}.

Definition set_xticks (ax : Axes) (ticks : list nat) : Axes :=
  {| bars := bars ax; xticks := ticks;
     xticklabels := xticklabels ax; rotation := rotation ax |}.

(** With fixed tick positions, matplotlib refuses a list of labels of
    another length. *)
Definition set_xticklabels (ax : Axes) (labels : list string) (rot : Z)
  : result Axes :=
  if Nat.eqb (length labels) (length (xticks ax)) || Nat.eqb (length labels) 0
  then Ok {| bars := bars ax; xticks := xticks ax;
             xticklabels := labels; rotation := rot |}
  else Raise ValueError.

(** Lines 114-118: the first [len(feat_names) - 1] importances, then the
    sum of the others. [feature_importances_] is
    [pipe["random_forest"].feature_importances_] of the fitted pipeline. *)
Definition feat_imp (feature_importances_ : list Q) (feat_names : list string)
  : list Q :=
  let n := Z.of_nat (length feat_names) in
  let feat_imp := slice_to feature_importances_ (n - 1) in
  let nlp_importance := py_sum (slice_from feature_importances_ (n - 1)) in
  feat_imp ++ [nlp_importance].

(** Lines 119-124: the chart. *)
Definition plot_feature_importance
    (feature_importances_ : list Q) (feat_names : list string) : result Axes :=
  let feat_imp := feat_imp feature_importances_ feat_names in
  let sub_feat_imp := subplots in
  let sub_feat_imp :=
    bar sub_feat_imp (seq 0 (length feat_imp)) feat_imp in
  let sub_feat_imp := set_xticks sub_feat_imp (seq 0 (length feat_imp)) in
  set_xticklabels sub_feat_imp feat_names 90.

(** *** Python values of the regressor configuration *)

Inductive pyvalue : Type :=
| PyNone
| PyBool (b : bool)
| PyInt (z : Z)
| PyFloat (x : float)
| PyStr (s : string)
| PyList (l : list pyvalue)
| PyDict (d : gmap string pyvalue).

(** [o[k] = v]: only a dict takes a string key. *)
Definition setitem (o : pyvalue) (k : string) (v : pyvalue) : result pyvalue :=
  match o with
  | PyDict d => Ok (PyDict (<[k := v]> d))
  | _ => Raise TypeError
  end.

(** *** The scikit-learn objects [get_inference_pipeline] builds *)

Inductive Strategy : Type := most_frequent | constant.

Inductive PyFunc : Type :=
| delta_date_feature_ref
| np_reshape (newshape : Z).

Inductive Transformer : Type :=
| OrdinalEncoder
| OneHotEncoder
| SimpleImputer (strategy : Strategy) (fill_value : option cell)
| FunctionTransformer (func : PyFunc)
| TfidfVectorizer (binary : bool) (max_features : Z) (stop_words : string)
| Pipeline (steps : list (string * Transformer)).

Inductive Remainder : Type := drop | passthrough.

Record ColumnTransformer : Type := mkColumnTransformer {
  transformers : list (string * Transformer * list string);
  remainder : Remainder
}.

(** The regressor is known here by the keyword arguments of its
    constructor call. *)
Record RandomForestRegressor : Type := mkRandomForestRegressor {
  kwargs : gmap string pyvalue
}.

(** The constructor call of lines 127 and 179 unpacks [rf_config] as
    keyword arguments, which needs a mapping. *)
Definition new_RandomForestRegressor (rf_config : pyvalue)
  : result RandomForestRegressor :=
  match rf_config with
  | PyDict d => Ok {| kwargs := d |}
  | _ => Raise TypeError
  end.

(** [Pipeline([('preprocessor', ..), ('random_forest', ..)])] *)
Record InferencePipeline : Type := mkInferencePipeline {
  preprocessor : ColumnTransformer;
  random_forest : RandomForestRegressor
}.

(** *** Lines 126-186: [get_inference_pipeline] *)

Definition ordinal_categorical : list string := ["room_type"].
Definition non_ordinal_categorical : list string := ["neighbourhood_group"].

Definition ordinal_categorical_preproc : Transformer := OrdinalEncoder.

Definition non_ordinal_categorical_preproc : Transformer :=
  Pipeline [("imputer", SimpleImputer most_frequent None);
            ("encoder", OneHotEncoder)].

Definition zero_imputed : list string :=
  ["minimum_nights"; "number_of_reviews"; "reviews_per_month";
   "calculated_host_listings_count"; "availability_365";
   "longitude"; "latitude"].

Definition zero_imputer : Transformer :=
  SimpleImputer constant (Some (Num 0%float)).

Definition date_sentinel : cell := Str "2010-01-01".

Definition date_imputer : Transformer :=
  Pipeline [("imputer", SimpleImputer constant (Some date_sentinel));
            ("transform", FunctionTransformer delta_date_feature_ref)].

Definition reshape_to_1d : Transformer := FunctionTransformer (np_reshape (-1)).

Definition name_tfidf (max_tfidf_features : Z) : Transformer :=
  Pipeline [("imputer", SimpleImputer constant (Some (Str "")));
            ("reshape", reshape_to_1d);
            ("tfidf", TfidfVectorizer false max_tfidf_features "english")].

Definition make_preprocessor (max_tfidf_features : Z) : ColumnTransformer :=
  {| transformers :=
       [("ordinal_cat", ordinal_categorical_preproc, ordinal_categorical);
        ("non_ordinal_cat", non_ordinal_categorical_preproc,
         non_ordinal_categorical);
        ("impute_zero", zero_imputer, zero_imputed);
        ("transform_date", date_imputer, ["last_review"]);
        ("transform_name", name_tfidf max_tfidf_features, ["name"])];
     remainder := drop |}.

Definition get_inference_pipeline (rf_config : pyvalue) (max_tfidf_features : Z)
  : result (InferencePipeline * list string) :=
  let* random_forest := new_RandomForestRegressor rf_config in
  let preprocessor := make_preprocessor max_tfidf_features in
  let processed_features :=
    ordinal_categorical ++ non_ordinal_categorical ++ zero_imputed
      ++ ["last_review"; "name"] in
  let* random_forest := new_RandomForestRegressor rf_config in
  let sk_pipe :=
    {| preprocessor := preprocessor; random_forest := random_forest |} in
  Ok (sk_pipe, processed_features).

(** *** What the column transformer computes *)

(** An int64 number of days as the float64 it becomes in the stacked
    matrix. *)
Definition float_of_Z (k : Z) : float :=
  if (k <? 0)%Z then PrimFloat.opp (PrimFloat.of_uint63 (Uint63.of_Z (- k)))
  else PrimFloat.of_uint63 (Uint63.of_Z k).

Definition days_cell (d : option Z) : cell :=
  match d with
  | Some k => Num (float_of_Z k)
  | None => NA
  end.

(** [SimpleImputer(strategy="constant", fill_value=v)] *)
Definition fillna (v : cell) (X : Matrix) : Matrix :=
  map (map (fun c => if isna c then v else c)) X.

(** [df[cols]] as a 2-D array; scikit-learn reports an absent column as
    a [ValueError]. *)
Definition select_columns (df : DataFrame) (cols : list string) : result Matrix :=
  match mapM (getitem df) cols with
  | Ok cs => Ok (transpose (length (rows df)) cs)
  | Raise _ => Raise ValueError
  end.

(** [np.hstack] of blocks of [n] rows each. *)
Definition hstack (n : nat) (blocks : list Matrix) : result Matrix :=
  if forallb (fun b => Nat.eqb (length b) n) blocks
  then Ok (map (@concat cell) (transpose n blocks))
  else Raise ValueError.

Definition routed (ct : ColumnTransformer) : list string :=
  flat_map snd (transformers ct).

Definition member (c : string) (l : list string) : bool :=
  existsb (String.eqb c) l.

(** The columns no transformer names. *)
Definition remaining (ct : ColumnTransformer) (df : DataFrame) : list string :=
  List.filter (fun c => negb (member c (routed ct))) (columns df).

Section Transform.
Variable to_datetime_scalar : cell -> result Timestamp.
(** The fitted scikit-learn encoders, and numpy's reshape. *)
Variable sk_transform : Transformer -> Matrix -> result Matrix.

Fixpoint transform (t : Transformer) (X : Matrix) : result Matrix :=
  match t with
  | SimpleImputer constant (Some v) => Ok (fillna v X)
  | FunctionTransformer delta_date_feature_ref =>
      let* d := delta_date_feature to_datetime_scalar X in
      Ok (map (map days_cell) d)
  | Pipeline steps =>
      (fix run (steps : list (string * Transformer)) (X : Matrix)
         : result Matrix :=
         match steps with
         | [] => Ok X
         | s :: rest =>
             let* X' := transform (snd s) X in
             run rest X'
         end) steps X
  | _ => sk_transform t X
  end.

(** One group of the column transformer: its transformer on its own
    columns. *)
Definition block (df : DataFrame) (t : Transformer) (cols : list string)
  : result Matrix :=
  let* Xs := select_columns df cols in
  transform t Xs.

(** [ColumnTransformer.transform]: every transformer on its own
    columns, the blocks stacked in the order of the list. *)
Definition column_transform (ct : ColumnTransformer) (df : DataFrame)
  : result Matrix :=
  let* blocks :=
    mapM (fun e => block df (snd (fst e)) (snd e)) (transformers ct) in
  let* rest :=
    match remainder ct with
    | drop => Ok []
    | passthrough =>
        let* Xr := select_columns df (remaining ct df) in
        Ok [Xr]
    end in
  hstack (length (rows df)) (blocks ++ rest).
End Transform.


(** *** Lines 188-240: the command line *)

Record Args : Type := mkArgs {
  trainval_artifact : option string;
  val_size : option float;
  random_seed : Z;
  stratify_by : string;
  rf_config : string;
  max_tfidf_features : Z;
  output_artifact : string
}.

(** The flags as given: [None] for a flag that is absent. *)
Record Argv : Type := mkArgv {
  given_trainval_artifact : option string;
  given_val_size : option float;
  given_random_seed : option Z;
  given_stratify_by : option string;
  given_rf_config : option string;
  given_max_tfidf_features : option Z;
  given_output_artifact : option string
}.

Definition with_default {A : Type} (d : A) (o : option A) : A :=
  match o with
  | Some a => a
  | None => d
  end.

(** [parser.parse_args()]: the declared defaults; [--output_artifact]
    is the one required flag. *)
Definition parse_args (argv : Argv) : result Args :=
  match given_output_artifact argv with
  | None => Raise SystemExit
  | Some out =>
      Ok {| trainval_artifact := given_trainval_artifact argv;
            val_size := given_val_size argv;
            random_seed := with_default 42%Z (given_random_seed argv);
            stratify_by := with_default "none" (given_stratify_by argv);
            rf_config := with_default "{}" (given_rf_config argv);
            max_tfidf_features :=
              with_default 10%Z (given_max_tfidf_features argv);
            output_artifact := out |}
  end.

(** *** Lines 38-110: [go] *)

Definition remove_nth {A : Type} (i : nat) (l : list A) : list A :=
  firstn i l ++ skipn (S i) l.

(** [df.pop(col)]: the column, and the frame without it. *)
Definition pop (df : DataFrame) (col : string) : result (Series * DataFrame) :=
  match get_loc col (columns df) with
  | None => Raise (KeyError col)
  | Some i =>
      Ok (map (fun r => iloc r i) (rows df),
          {| columns := remove_nth i (columns df);
             rows := map (remove_nth i) (rows df) |})
  end.

Record Split : Type := mkSplit {
  X_train : DataFrame;
  X_val : DataFrame;
  y_train : Series;
  y_val : Series
}.

(** What [go] has in hand when it returns. *)
Record Run : Type := mkRun {
  run_rf_config : pyvalue;
  run_split : Split;
  sk_pipe : InferencePipeline;
  processed_features : list string;
  fig_feat_imp : Axes
}.

Section Go.
(** The local files: path to content. *)
Variable files : gmap string string.
(** [json.load] on the content of a file. *)
Variable json_load : string -> result pyvalue.
(** [pd.read_csv(run.use_artifact(name).file())] *)
Variable read_artifact : option string -> result DataFrame.
(** [train_test_split(X, y, test_size, stratify, random_state)];
    [stratify] may be [None] in scikit-learn. *)
Variable train_test_split :
  DataFrame -> Series -> option float -> option Series -> Z -> result Split.
(** [sk_pipe.fit(X_train, y_train)], read through the
    [feature_importances_] of the fitted forest. *)
Variable fit :
  InferencePipeline -> DataFrame -> Series -> result (list Q).

Definition open_ (path : string) : result string :=
  match files !! path with
  | Some content => Ok content
  | None => Raise (FileNotFoundError path)
  end.

(** Lines 43-48. *)
Definition load_rf_config (args : Args) : result pyvalue :=
  let* fp := open_ (rf_config args) in
  let* rf_config := json_load fp in
  setitem rf_config "random_state" (PyInt (random_seed args)).

(** Lines 53-63. *)
Definition load_and_split (args : Args) : result Split :=
  let* X := read_artifact (trainval_artifact args) in
  let* yX := pop X "price" in
  let y := fst yX in
  let X := snd yX in
  let* stratify := getitem X (stratify_by args) in
  train_test_split X y (val_size args) (Some stratify) (random_seed args).

(** Scoring, the export of the model and the uploads (lines 73-98 and
    104-110) are calls into the libraries on the objects below; they
    change none of them. *)
Definition go (args : Args) : result Run :=
  let* rf_config := load_rf_config args in
  let* split := load_and_split args in
  let* built := get_inference_pipeline rf_config (max_tfidf_features args) in
  let sk_pipe := fst built in
  let processed_features := snd built in
  let* importances := fit sk_pipe (X_train split) (y_train split) in
  let* fig_feat_imp := plot_feature_importance importances processed_features in
  Ok {| run_rf_config := rf_config;
        run_split := split;
        sk_pipe := sk_pipe;
        processed_features := processed_features;
        fig_feat_imp := fig_feat_imp |}.
End Go.


End TrainRandomForest.

(** ** Concrete inputs *)

Module Scenario.
Import Pandas.

(** The five-row frame of the end-to-end scenario of the cleaning
    stage: a price below the range, a latitude out of the box, a
    missing [reviews_per_month], and two valid rows. *)
Definition raw_listings : DataFrame :=
  {| columns := ["name"; "price"; "reviews_per_month"; "longitude"; "latitude"];
     rows :=
       [[Str "Loft"; Num 5; Num 0.5; Num (-73.95); Num 40.7];
        [Str "Cabin"; Num 120; Num 1.5; Num (-73.95); Num 50];
        [Str "Studio"; Num 80; NA; Num (-73.9); Num 40.8];
        [Str "Flat"; Num 150; Num 2; Num (-74.0); Num 40.75];
        [Str "Room"; Num 60; Num 0.25; Num (-73.8); Num 41.2]] |}.

Definition clean_listings : DataFrame :=
  {| columns := ["name"; "price"; "reviews_per_month"; "longitude"; "latitude"];
     rows :=
       [[Str "Flat"; Num 150; Num 2; Num (-74.0); Num 40.75];
        [Str "Room"; Num 60; Num 0.25; Num (-73.8); Num 41.2]] |}.

Import TrainRandomForest.

(** The ISO-8601 fragment of [pd.to_datetime]: [YYYY-MM-DD], with an
    optional [ HH:MM:SS], and the missing value, which becomes NaT.
    It is the parser the model is run with on concrete columns. *)
Definition digit (a : ascii) : option Z :=
  let n := Z.of_nat (nat_of_ascii a) in
  if ((48 <=? n) && (n <=? 57))%Z then Some (n - 48)%Z else None.

Fixpoint digits (acc : Z) (l : list ascii) : option Z :=
  match l with
  | [] => Some acc
  | a :: l' =>
      match digit a with
      | Some d => digits (10 * acc + d)%Z l'
      | None => None
      end
  end.

Definition is_leap (y : Z) : bool :=
  ((y mod 4 =? 0) && (negb (y mod 100 =? 0) || (y mod 400 =? 0)))%Z.

Definition days_in_month (y m : Z) : Z :=
  if (m =? 2)%Z then (if is_leap y then 29 else 28)%Z
  else if ((m =? 4) || (m =? 6) || (m =? 9) || (m =? 11))%Z then 30%Z
  else 31%Z.

(** Days from 1970-01-01 to the civil date [y]-[m]-[d]. *)
Definition days_from_civil (y m d : Z) : Z :=
  let y' := if (m <=? 2)%Z then (y - 1)%Z else y in
  let era := (y' / 400)%Z in
  let yoe := (y' - era * 400)%Z in
  let mp := ((m + 9) mod 12)%Z in
  let doy := ((153 * mp + 2) / 5 + d - 1)%Z in
  let doe := (yoe * 365 + yoe / 4 - yoe / 100 + doy)%Z in
  (era * 146097 + doe - 719468)%Z.

Definition iso_date (l : list ascii) : option Z :=
  match l with
  | [y1; y2; y3; y4; "-"%char; m1; m2; "-"%char; d1; d2] =>
      match digits 0 [y1; y2; y3; y4], digits 0 [m1; m2], digits 0 [d1; d2] with
      | Some y, Some m, Some d =>
          if ((1 <=? m) && (m <=? 12) && (1 <=? d) && (d <=? days_in_month y m))%Z
          then Some (days_from_civil y m d)
          else None
      | _, _, _ => None
      end
  | _ => None
  end.

Definition iso_time (l : list ascii) : option Z :=
  match l with
  | [] => Some 0%Z
  | [" "%char; h1; h2; ":"%char; m1; m2; ":"%char; s1; s2] =>
      match digits 0 [h1; h2], digits 0 [m1; m2], digits 0 [s1; s2] with
      | Some h, Some m, Some s =>
          if ((h <=? 23) && (m <=? 59) && (s <=? 59))%Z
          then Some (((h * 60 + m) * 60 + s) * 1000000000)%Z
          else None
      | _, _, _ => None
      end
  | _ => None
  end.

Definition iso_to_datetime (c : cell) : result Timestamp :=
  match c with
  | Num x => if PrimFloat.is_nan x then Ok NaT else Raise ValueError
  | Str s =>
      let l := list_ascii_of_string s in
      match iso_date (firstn 10 l), iso_time (skipn 10 l) with
      | Some days, Some ns => Ok (TS (days * ns_per_day + ns))
      | _, _ => Raise ValueError
      end
  end.

(** A [last_review] column. *)
Definition last_review : Series :=
  [Str "2019-05-21"; Str "2019-07-05"; Str "2010-01-01"; Str "2019-07-05"].

(** The importances of a forest fitted on 19 columns: one ordinal code,
    five one-hot columns, seven numeric columns, the date delta and five
    text terms. *)
Definition fitted_importances : list Q :=
  [20 # 100; 3 # 100; 2 # 100; 1 # 100; 1 # 100; 1 # 100; 10 # 100;
   8 # 100; 6 # 100; 4 # 100; 9 # 100; 15 # 100; 12 # 100; 3 # 100;
   1 # 100; 1 # 100; 1 # 100; 1 # 100; 1 # 100]%Q.

(** The feature names [get_inference_pipeline] returns. *)
Definition pipeline_features : list string :=
  match get_inference_pipeline (PyDict ∅) 5 with
  | Ok built => snd built
  | Raise _ => []
  end.

(** Three listings as the training stage reads them, and the same
    listings with the columns no transformer names taken away. *)
Definition listing_columns : list string :=
  ["id"; "name"; "host_id"; "neighbourhood_group"; "latitude"; "longitude";
   "room_type"; "minimum_nights"; "number_of_reviews"; "last_review";
   "reviews_per_month"; "calculated_host_listings_count"; "availability_365"].

Definition listings : DataFrame :=
  {| columns := listing_columns;
     rows :=
       [[Num 2539; Str "Clean and quiet apt"; Num 2787; Str "Brooklyn";
         Num 40.64749; Num (-73.97237); Str "Private room"; Num 1; Num 9;
         Str "2018-10-19"; Num 0.21; Num 6; Num 365];
        [Num 2595; Str "Skylit Midtown Castle"; Num 2845; Str "Manhattan";
         Num 40.75362; Num (-73.98377); Str "Entire home/apt"; Num 1; Num 45;
         Str "2019-05-21"; Num 0.38; Num 2; Num 355];
        [Num 3647; NA; Num 4632; Str "Manhattan";
         Num 40.80902; Num (-73.9419); Str "Private room"; Num 3; Num 0;
         NA; NA; Num 1; Num 365]] |}.


(** Stand-ins for the fitted encoders, to run the router: each one
    gives back the block it receives. *)
Definition keep_block (t : Transformer) (X : Matrix) : result Matrix := Ok X.

(** A regressor configuration file, and the local files of a run. *)
Definition dquote : string := String (ascii_of_nat 34) "".

Definition rf_config_text : string :=
  "{" ++ dquote ++ "n_estimators" ++ dquote ++ ": 100, "
      ++ dquote ++ "random_state" ++ dquote ++ ": 7}".

Definition rf_config_dict : gmap string pyvalue :=
  <["n_estimators" := PyInt 100]> (<["random_state" := PyInt 7]> ∅).

Definition local_files : gmap string string :=
  {["rf_config.json" := rf_config_text]}.

(** [json.load] on the texts used here. *)
Definition json_load_table (text : string) : result pyvalue :=
  if String.eqb text rf_config_text then Ok (PyDict rf_config_dict)
  else if String.eqb text "{}" then Ok (PyDict ∅)
  else if String.eqb text "[]" then Ok (PyList [])
  else Raise JSONDecodeError.

(** The training artifact: the three listings with their price. *)
Definition trainval : DataFrame :=
  {| columns := columns listings ++ ["price"];
     rows := map (fun rp => fst rp ++ [Num (snd rp)])
                 (combine (rows listings) [149; 225; 150]%float) |}.

Definition read_trainval (name : option string) : result DataFrame :=
  match name with
  | Some _ => Ok trainval
  | None => Raise TypeError
  end.

(** Stand-ins for the splitter and for fitting: the split keeps every
    row on both sides, and the fitted forest has [fitted_importances]. *)
Definition split_all (X : DataFrame) (y : Series) (test_size : option float)
    (stratify : option Series) (random_state : Z) : result Split :=
  Ok {| X_train := X; X_val := X; y_train := y; y_val := y |}.

Definition fit_fixed (pipe : InferencePipeline) (X : DataFrame) (y : Series)
  : result (list Q) :=
  Ok fitted_importances.

(** The command lines of three runs: every flag given; the same without
    [--stratify_by]; and the same without [--rf_config]. *)
Definition argv_full : Argv :=
  {| given_trainval_artifact := Some "trainval_data.csv:latest";
     given_val_size := Some 0.2%float;
     given_random_seed := Some 42%Z;
     given_stratify_by := Some "neighbourhood_group";
     given_rf_config := Some "rf_config.json";
     given_max_tfidf_features := Some 5%Z;
     given_output_artifact := Some "random_forest_export" |}.


Definition argv_no_rf_config : Argv :=
  {| given_trainval_artifact := Some "trainval_data.csv:latest";
     given_val_size := Some 0.2%float;
     given_random_seed := Some 42%Z;
     given_stratify_by := Some "neighbourhood_group";
     given_rf_config := None;
     given_max_tfidf_features := Some 5%Z;
     given_output_artifact := Some "random_forest_export" |}.

Definition args_of (argv : Argv) : Args :=
  match parse_args argv with
  | Ok args => args
  | Raise _ =>
      {| trainval_artifact := None; val_size := None; random_seed := 0;
         stratify_by := ""; rf_config := ""; max_tfidf_features := 0;
         output_artifact := "" |}
  end.

Definition last_review_ts : list Timestamp :=
  [TS 1558396800000000000; TS 1562284800000000000;
   TS 1262304000000000000; TS 1562284800000000000].



End Scenario.

(** ** More vocabulary for the properties *)

Module Vocabulary.
Import Pandas TrainRandomForest.

(** Column [j] of a 2-D array. *)
Definition get_column {A : Type} (j : nat) (X : list (list A)) : list A :=
  heads (map (skipn j) X).

(** Every row has [m] entries. *)
Definition rectangular {A : Type} (m : nat) (X : list (list A)) : Prop :=
  Forall (fun r => length r = m) X.

Definition is_TS (t : Timestamp) : bool :=
  match t with
  | TS _ => true
  | NaT => false
  end.

Definition has_value (o : option Z) : bool :=
  match o with
  | Some _ => true
  | None => false
  end.

(** A timestamp moved by [c] nanoseconds. *)
Definition shift (c : Z) (t : Timestamp) : Timestamp :=
  match t with
  | TS ns => TS (ns + c)
  | NaT => NaT
  end.

End Vocabulary.

(** ** More concrete inputs *)

Module MoreScenario.
Import Pandas TrainRandomForest Scenario.

(** A frame with no [price] column, and one whose prices were read as
    text. *)
Definition unpriced_listings : DataFrame :=
  {| columns := ["name"; "longitude"; "latitude"];
     rows := [[Str "Loft"; Num (-73.95); Num 40.7]] |}.


(** Reviews of two listings in two columns, and a column with a value
    that is no date. *)
Definition two_columns : Matrix :=
  [[Str "2019-05-21"; Str "2018-01-01"];
   [Str "2019-07-05"; NA];
   [Str "2010-01-01"; Str "2018-01-03"]].

Definition broken_column : Series :=
  [Str "2019-05-21"; Str "yesterday"; Str "2019-07-05"].

(** A configuration file that holds a JSON array, and a command line
    that asks to stratify by the label. *)
Definition array_config_files : gmap string string :=
  {["rf_config.json" := "[]"]}.


End MoreScenario.

(** * Properties *)

(** ** Results and lists *)

Lemma bind_Ok_inv {A B : Type} (m : result A) (k : A -> result B) (b : B) :
  bind m k = Ok b -> exists a, m = Ok a /\ k a = Ok b.
Proof.
  destruct m as [a|e]; simpl; intros H; [eauto | discriminate].
Qed.

Section ResultFacts.
Context {A B : Type}.

Lemma mapM_map (f : A -> result B) (g : A -> B) (l : list A) :
  Forall (fun x => f x = Ok (g x)) l -> mapM f l = Ok (map g l).
Proof.
  induction 1 as [|x l Hx _ IH]; simpl; [reflexivity|].
  rewrite Hx; simpl. rewrite IH; reflexivity.
Qed.

Lemma mapM_Ok_inv (f : A -> result B) (l : list A) (ys : list B) :
  mapM f l = Ok ys -> Forall2 (fun x y => f x = Ok y) l ys.
Proof.
  revert ys; induction l as [|x l IH]; simpl; intros ys H.
  - injection H as <-. constructor.
  - apply bind_Ok_inv in H as (y & Hy & H).
    destruct (mapM f l) as [ys'|e]; simpl in H; [|discriminate].
    injection H as <-. constructor; auto.
Qed.

End ResultFacts.

Lemma filter_all {A : Type} (f : A -> bool) (l : list A) :
  Forall (fun x => f x = true) l -> List.filter f l = l.
Proof.
  induction 1 as [|x l Hx _ IH]; simpl; [reflexivity|].
  rewrite Hx, IH; reflexivity.
Qed.

Lemma Forall_filter_true {A : Type} (f : A -> bool) (l : list A) :
  Forall (fun x => f x = true) (List.filter f l).
Proof.
  apply List.Forall_forall. intros x Hx. apply filter_In in Hx. tauto.
Qed.

Lemma Forall_filter_keep {A : Type} (P : A -> Prop) (f : A -> bool) (l : list A) :
  Forall P l -> Forall P (List.filter f l).
Proof.
  rewrite !List.Forall_forall. intros H x Hx. apply filter_In in Hx. apply H, Hx.
Qed.

Lemma filter_mask {A : Type} (f : A -> bool) (l : list A) :
  map snd (List.filter fst (combine (map f l) l)) = List.filter f l.
Proof.
  induction l as [|x l IH]; simpl; [reflexivity|].
  destruct (f x); simpl; rewrite IH; reflexivity.
Qed.

(** ** The pandas fragment *)

Module PandasFacts.
Import Pandas.

Lemma mask_and_map {A : Type} (f g : A -> bool) (l : list A) :
  mask_and (map f l) (map g l) = map (fun x => f x && g x) l.
Proof.
  unfold mask_and. induction l as [|x l IH]; simpl; [reflexivity|].
  rewrite IH; reflexivity.
Qed.

Lemma cmp_scalar_num (op : float -> bool) (s : Series) :
  Forall (fun c => is_num c = true) s ->
  cmp_scalar op s
  = Ok (map (fun c => match c with Num x => op x | Str _ => false end) s).
Proof.
  intros H. unfold cmp_scalar. apply mapM_map.
  eapply List.Forall_impl; [|exact H].
  intros [x|t]; simpl; [reflexivity | discriminate].
Qed.

Lemma cmp_scalar_Ok_num (op : float -> bool) (s : Series) (m : list bool) :
  cmp_scalar op s = Ok m -> Forall (fun c => is_num c = true) s.
Proof.
  intros H. apply mapM_Ok_inv in H.
  induction H as [|c b s m Hc _ IH]; constructor; auto.
  destruct c; [reflexivity | discriminate].
Qed.

(** [between] succeeds exactly on a series of numbers, and then it is
    the elementwise test [in_range]. *)
Lemma between_num (s : Series) (left right : float) :
  Forall (fun c => is_num c = true) s ->
  between s left right = Ok (map (in_range left right) s).
Proof.
  intros H. unfold between, ge, le.
  rewrite !cmp_scalar_num by exact H. simpl.
  rewrite mask_and_map. f_equal. apply map_ext.
  intros [x|t]; reflexivity.
Qed.

Lemma between_Ok_inv (s : Series) (left right : float) (m : list bool) :
  between s left right = Ok m ->
  Forall (fun c => is_num c = true) s /\ m = map (in_range left right) s.
Proof.
  intros H.
  assert (Hn : Forall (fun c => is_num c = true) s).
  { unfold between in H. apply bind_Ok_inv in H as (lm & Hl & _).
    eapply cmp_scalar_Ok_num, Hl. }
  split; [exact Hn|].
  rewrite between_num in H by exact Hn. congruence.
Qed.

Lemma rows_select_map (f : Row -> bool) (df : DataFrame) :
  select (map f (rows df)) df
  = {| columns := columns df; rows := List.filter f (rows df) |}.
Proof. unfold select. rewrite filter_mask. reflexivity. Qed.

Lemma dropna_filter (df : DataFrame) :
  dropna df
  = {| columns := columns df;
       rows := List.filter (complete (length (columns df))) (rows df) |}.
Proof. apply rows_select_map. Qed.

Lemma complete_notna (n : nat) (r : Row) :
  complete n r = true <-> forall i, (i < n)%nat -> isna (iloc r i) = false.
Proof.
  unfold complete, notna. rewrite forallb_forall. split.
  - intros H i Hi. specialize (H i). rewrite in_seq in H.
    apply negb_true_iff, H. lia.
  - intros H i Hi. apply in_seq in Hi. apply negb_true_iff, H. lia.
Qed.

Lemma get_loc_lt (col : string) (cols : list string) (i : nat) :
  get_loc col cols = Some i -> (i < length cols)%nat.
Proof.
  revert i; induction cols as [|c cols IH]; simpl; intros i H; [discriminate|].
  destruct (String.eqb c col).
  - injection H as <-. lia.
  - destruct (get_loc col cols) as [j|]; simpl in H; [|discriminate].
    injection H as <-. specialize (IH j eq_refl). lia.
Qed.

Lemma get_loc_nth (col : string) (cols : list string) (i : nat) :
  get_loc col cols = Some i -> nth_error cols i = Some col.
Proof.
  revert i; induction cols as [|c cols IH]; simpl; intros i H; [discriminate|].
  destruct (String.eqb c col) eqn:E.
  - injection H as <-. apply String.eqb_eq in E. subst; reflexivity.
  - destruct (get_loc col cols) as [j|]; simpl in H; [|discriminate].
    injection H as <-. simpl. auto.
Qed.

Lemma get_loc_None (col : string) (cols : list string) :
  get_loc col cols = None <-> ~ In col cols.
Proof.
  induction cols as [|c cols IH]; simpl; [tauto|].
  destruct (String.eqb c col) eqn:E.
  - apply String.eqb_eq in E. split; [discriminate | tauto].
  - apply String.eqb_neq in E.
    destruct (get_loc col cols) as [j|] eqn:G; simpl.
    + split; [discriminate|]. intros H. exfalso. apply H. right.
      eapply nth_error_In, get_loc_nth, G.
    + split; [|reflexivity]. intros _ [H|H]; [contradiction|].
      apply IH in H; [exact H | reflexivity].
Qed.

End PandasFacts.

(** ** The cleaning stage *)

Module BasicCleaningFacts.
Import Pandas PandasFacts BasicCleaning.

Lemma getitem_Ok_inv (df : DataFrame) (col : string) (s : Series) :
  getitem df col = Ok s ->
  exists i, get_loc col (columns df) = Some i
            /\ s = map (fun r => iloc r i) (rows df).
Proof.
  unfold getitem. destruct (get_loc col (columns df)) as [i|]; intros H.
  - injection H as <-. eauto.
  - discriminate.
Qed.

(** The masked selection on column [col], bounds [l] and [r]. *)
Lemma column_between_Ok_inv (df : DataFrame) (col : string) (l r : float)
    (m : list bool) :
  (let* s := getitem df col in between s l r) = Ok m ->
  exists i, get_loc col (columns df) = Some i
            /\ Forall (fun row => is_num (iloc row i) = true) (rows df)
            /\ m = map (fun row => in_range l r (iloc row i)) (rows df).
Proof.
  intros H. apply bind_Ok_inv in H as (s & Hs & H).
  apply getitem_Ok_inv in Hs as (i & Hi & ->).
  apply between_Ok_inv in H as (Hn & ->).
  exists i. split; [exact Hi|]. split.
  - apply List.Forall_map in Hn. exact Hn.
  - apply map_map.
Qed.

Lemma column_between_num (df : DataFrame) (col : string) (l r : float) (i : nat) :
  get_loc col (columns df) = Some i ->
  Forall (fun row => is_num (iloc row i) = true) (rows df) ->
  (let* s := getitem df col in between s l r)
  = Ok (map (fun row => in_range l r (iloc row i)) (rows df)).
Proof.
  intros Hi Hn. unfold getitem. rewrite Hi. simpl.
  rewrite between_num by (apply List.Forall_map; exact Hn).
  rewrite map_map. reflexivity.
Qed.

Lemma price_filter_Ok_inv (lo hi : float) (df d : DataFrame) :
  price_filter lo hi df = Ok d ->
  exists ip, get_loc "price" (columns df) = Some ip
    /\ Forall (fun r => is_num (iloc r ip) = true) (rows df)
    /\ d = {| columns := columns df;
              rows := List.filter (fun r => in_range lo hi (iloc r ip)) (rows df) |}.
Proof.
  unfold price_filter. intros H.
  destruct (let* s := getitem df "price" in between s lo hi) as [m|e] eqn:E.
  - apply column_between_Ok_inv in E as (ip & Hi & Hn & ->).
    exists ip. repeat split; [exact Hi | exact Hn |].
    unfold getitem in H. rewrite Hi in H. simpl in H.
    rewrite between_num in H by (apply List.Forall_map; exact Hn).
    simpl in H. injection H as <-.
    rewrite map_map. apply rows_select_map.
  - exfalso. destruct (getitem df "price") as [s|e']; simpl in *;
      [rewrite E in H|]; discriminate.
Qed.

Lemma price_filter_num (lo hi : float) (df : DataFrame) (ip : nat) :
  get_loc "price" (columns df) = Some ip ->
  Forall (fun r => is_num (iloc r ip) = true) (rows df) ->
  price_filter lo hi df
  = Ok {| columns := columns df;
          rows := List.filter (fun r => in_range lo hi (iloc r ip)) (rows df) |}.
Proof.
  intros Hi Hn. unfold price_filter, getitem. rewrite Hi. simpl.
  rewrite between_num by (apply List.Forall_map; exact Hn). simpl.
  rewrite map_map. f_equal. apply rows_select_map.
Qed.

Lemma geo_filter_num (df : DataFrame) (ilon ilat : nat) :
  get_loc "longitude" (columns df) = Some ilon ->
  get_loc "latitude" (columns df) = Some ilat ->
  Forall (fun r => is_num (iloc r ilon) = true) (rows df) ->
  Forall (fun r => is_num (iloc r ilat) = true) (rows df) ->
  geo_filter df
  = Ok {| columns := columns df;
          rows := List.filter (in_box ilon ilat) (rows df) |}.
Proof.
  intros Hlon Hlat Nlon Nlat. unfold geo_filter, getitem.
  rewrite Hlon, Hlat. simpl.
  rewrite !between_num by (apply List.Forall_map; assumption). simpl.
  rewrite !map_map, mask_and_map. f_equal. apply rows_select_map.
Qed.

Lemma geo_filter_Ok_inv (df d : DataFrame) :
  geo_filter df = Ok d ->
  exists ilon ilat,
    get_loc "longitude" (columns df) = Some ilon
    /\ get_loc "latitude" (columns df) = Some ilat
    /\ Forall (fun r => is_num (iloc r ilon) = true) (rows df)
    /\ Forall (fun r => is_num (iloc r ilat) = true) (rows df)
    /\ d = {| columns := columns df;
              rows := List.filter (in_box ilon ilat) (rows df) |}.
Proof.
  intros H. pose proof H as H0. unfold geo_filter in H.
  apply bind_Ok_inv in H as (lon & Glon & H).
  apply bind_Ok_inv in H as (mlon & Blon & H).
  apply bind_Ok_inv in H as (lat & Glat & H).
  apply bind_Ok_inv in H as (mlat & Blat & _).
  apply getitem_Ok_inv in Glon as (ilon & Hlon & ->).
  apply getitem_Ok_inv in Glat as (ilat & Hlat & ->).
  apply between_Ok_inv in Blon as (Nlon & _).
  apply between_Ok_inv in Blat as (Nlat & _).
  apply List.Forall_map in Nlon, Nlat.
  exists ilon, ilat. repeat split; try assumption.
  rewrite (geo_filter_num df ilon ilat) in H0 by assumption.
  congruence.
Qed.

Lemma filter_filter {A : Type} (f g : A -> bool) (l : list A) :
  List.filter g (List.filter f l) = List.filter (fun x => f x && g x) l.
Proof.
  induction l as [|x l IH]; simpl; [reflexivity|].
  destruct (f x); simpl; [destruct (g x)|]; rewrite IH; reflexivity.
Qed.

(** [go] returns a frame exactly when the three columns are there and
    hold numbers on the rows that reach their comparison, and the frame
    is then the input filtered three times. *)
Lemma go_Ok_inv (lo hi : float) (df out : DataFrame) :
  go lo hi df = Ok out ->
  exists ip ilon ilat,
    let n := length (columns df) in
    let priced := List.filter (fun r => in_range lo hi (iloc r ip)) (rows df) in
    let full := List.filter (complete n) priced in
    get_loc "price" (columns df) = Some ip
    /\ get_loc "longitude" (columns df) = Some ilon
    /\ get_loc "latitude" (columns df) = Some ilat
    /\ Forall (fun r => is_num (iloc r ip) = true) (rows df)
    /\ Forall (fun r => is_num (iloc r ilon) = true) full
    /\ Forall (fun r => is_num (iloc r ilat) = true) full
    /\ out = {| columns := columns df;
                rows := List.filter (in_box ilon ilat) full |}.
Proof.
  unfold go. intros H. apply bind_Ok_inv in H as (d & Hd & H).
  apply price_filter_Ok_inv in Hd as (ip & Hip & Np & ->).
  rewrite dropna_filter in H. simpl in H.
  apply geo_filter_Ok_inv in H as (ilon & ilat & Hlon & Hlat & Nlon & Nlat & ->).
  simpl in *. exists ip, ilon, ilat. simpl. auto 10.
Qed.

Lemma go_num (lo hi : float) (df : DataFrame) (ip ilon ilat : nat) :
  let n := length (columns df) in
  let priced := List.filter (fun r => in_range lo hi (iloc r ip)) (rows df) in
  let full := List.filter (complete n) priced in
  get_loc "price" (columns df) = Some ip ->
  get_loc "longitude" (columns df) = Some ilon ->
  get_loc "latitude" (columns df) = Some ilat ->
  Forall (fun r => is_num (iloc r ip) = true) (rows df) ->
  Forall (fun r => is_num (iloc r ilon) = true) full ->
  Forall (fun r => is_num (iloc r ilat) = true) full ->
  go lo hi df = Ok {| columns := columns df;
                      rows := List.filter (in_box ilon ilat) full |}.
Proof.
  intros n priced full Hip Hlon Hlat Np Nlon Nlat. unfold go.
  rewrite (price_filter_num lo hi df ip Hip Np). simpl.
  rewrite dropna_filter. simpl.
  rewrite (geo_filter_num _ ilon ilat); auto.
Qed.

(** On a frame whose three columns hold numbers only, [go] returns. *)
Lemma go_total (lo hi : float) (df : DataFrame) (ip ilon ilat : nat) :
  get_loc "price" (columns df) = Some ip ->
  get_loc "longitude" (columns df) = Some ilon ->
  get_loc "latitude" (columns df) = Some ilat ->
  Forall (fun r => is_num (iloc r ip) = true) (rows df) ->
  Forall (fun r => is_num (iloc r ilon) = true) (rows df) ->
  Forall (fun r => is_num (iloc r ilat) = true) (rows df) ->
  exists out, go lo hi df = Ok out.
Proof.
  intros Hip Hlon Hlat Np Nlon Nlat. eexists.
  apply (go_num lo hi df ip ilon ilat); auto using Forall_filter_keep.
Qed.

Lemma in_range_inv (l r : float) (c : cell) :
  in_range l r c = true ->
  exists x, c = Num x /\ PrimFloat.leb l x = true /\ PrimFloat.leb x r = true.
Proof.
  destruct c as [x|t]; simpl; intros H; [|discriminate].
  apply andb_true_iff in H. eauto.
Qed.

(** C2. For all price bounds and any input frame, the frame the
    cleaning filter returns is the input after the price filter, then
    the removal of the rows with a missing value, then the geographic
    filter; it keeps the header, its rows are the input rows that pass
    the three tests, in order, and every row of it has its price within
    the bounds (inclusive), its longitude in [-74.25, -73.50], its
    latitude in [40.5, 41.2] and no missing value in any column. *)
Theorem go_output_within_bounds (lo hi : float) (df out : DataFrame) :
  go lo hi df = Ok out ->
  (exists d, price_filter lo hi df = Ok d /\ geo_filter (dropna d) = Ok out)
  /\ columns out = columns df
  /\ (exists ip ilon ilat,
        get_loc "price" (columns df) = Some ip
        /\ get_loc "longitude" (columns df) = Some ilon
        /\ get_loc "latitude" (columns df) = Some ilat
        /\ rows out
           = List.filter (kept lo hi (length (columns df)) ip ilon ilat) (rows df))
  /\ forall r, In r (rows out) ->
       (exists p, cell_of out r "price" = Some (Num p)
                  /\ PrimFloat.leb lo p = true /\ PrimFloat.leb p hi = true)
       /\ (exists x, cell_of out r "longitude" = Some (Num x)
                     /\ PrimFloat.leb lon_min x = true
                     /\ PrimFloat.leb x lon_max = true)
       /\ (exists y, cell_of out r "latitude" = Some (Num y)
                     /\ PrimFloat.leb lat_min y = true
                     /\ PrimFloat.leb y lat_max = true)
       /\ (forall col c, cell_of out r col = Some c -> isna c = false).
Proof.
  intros H. split.
  { unfold go in H. apply bind_Ok_inv in H as (d & Hd & H). eauto. }
  apply go_Ok_inv in H as (ip & ilon & ilat & H). simpl in H.
  destruct H as (Hip & Hlon & Hlat & _ & _ & _ & ->). simpl.
  split; [reflexivity|]. split.
  { exists ip, ilon, ilat. repeat split; try assumption.
    unfold kept. rewrite !filter_filter. apply filter_ext.
    intros r. apply andb_assoc. }
  intros r Hr. rewrite !filter_filter in Hr. apply filter_In in Hr as [_ Hr].
  apply andb_true_iff in Hr as [Hprice Hr].
  apply andb_true_iff in Hr as [Hfull Hbox].
  apply andb_true_iff in Hbox as [Hx Hy].
  unfold cell_of; simpl. rewrite Hip, Hlon, Hlat; simpl.
  apply in_range_inv in Hprice as (p & -> & ? & ?).
  apply in_range_inv in Hx as (x & -> & ? & ?).
  apply in_range_inv in Hy as (y & -> & ? & ?).
  repeat split; eauto.
  intros col c Hc. destruct (get_loc col (columns df)) as [i|] eqn:Hi;
    simpl in Hc; [|discriminate].
  injection Hc as <-. apply (proj1 (complete_notna _ _) Hfull).
  eapply get_loc_lt, Hi.
Qed.

Lemma go_output_within_bounds_witness :
  go 10 1000 Scenario.raw_listings = Ok Scenario.clean_listings
  /\ columns Scenario.clean_listings = columns Scenario.raw_listings.
Proof.
  split; [vm_compute; reflexivity|].
  apply (go_output_within_bounds 10 1000 Scenario.raw_listings).
  vm_compute; reflexivity.
Defined.

(** C6. The cleaning filter is idempotent: with the same bounds, the
    filter returns its own output unchanged. *)
Theorem go_idempotent (lo hi : float) (df out : DataFrame) :
  go lo hi df = Ok out -> go lo hi out = Ok out.
Proof.
  intros H. apply go_Ok_inv in H as (ip & ilon & ilat & H). simpl in H.
  destruct H as (Hip & Hlon & Hlat & Np & Nlon & Nlat & ->).
  set (priced := List.filter (fun r => in_range lo hi (iloc r ip)) (rows df)) in *.
  set (full := List.filter (complete (length (columns df))) priced) in *.
  set (boxed := List.filter (in_box ilon ilat) full).
  assert (Hp : List.filter (fun r => in_range lo hi (iloc r ip)) boxed = boxed).
  { apply filter_all. unfold boxed, full.
    do 2 apply Forall_filter_keep. apply Forall_filter_true. }
  assert (Hf : List.filter (complete (length (columns df))) boxed = boxed).
  { apply filter_all. unfold boxed.
    apply Forall_filter_keep. apply Forall_filter_true. }
  assert (Hb : List.filter (in_box ilon ilat) boxed = boxed).
  { apply filter_all. apply Forall_filter_true. }
  rewrite (go_num lo hi _ ip ilon ilat); simpl; rewrite ?Hp, ?Hf, ?Hb;
    try assumption; try reflexivity.
  - unfold boxed, full, priced. do 3 apply Forall_filter_keep. exact Np.
  - apply Forall_filter_keep. exact Nlon.
  - apply Forall_filter_keep. exact Nlat.
Qed.

Lemma go_idempotent_witness :
  go 10 1000 Scenario.raw_listings = Ok Scenario.clean_listings
  /\ go 10 1000 Scenario.clean_listings = Ok Scenario.clean_listings.
Proof.
  split; [vm_compute; reflexivity|].
  apply (go_idempotent 10 1000 Scenario.raw_listings).
  vm_compute; reflexivity.
Defined.

End BasicCleaningFacts.

(** ** The date-delta transform *)

Module DeltaDateFacts.
Import Pandas TrainRandomForest.
Local Open Scope Z_scope.

Lemma heads_column {A : Type} (l : list A) : heads (column l) = l.
Proof.
  unfold heads, column. induction l as [|x l IH]; simpl; [reflexivity|].
  f_equal. exact IH.
Qed.

Lemma transpose_of_column {A : Type} (l : list A) :
  transpose 1 (column l) = [l].
Proof. simpl. rewrite heads_column. reflexivity. Qed.

Lemma transpose_to_column {A : Type} (l : list A) :
  transpose (length l) [l] = column l.
Proof.
  induction l as [|x l IH]; [reflexivity|].
  change (transpose (length (x :: l)) [x :: l])
    with (heads [x :: l] :: transpose (length l) [l]).
  rewrite IH. reflexivity.
Qed.

Lemma mapM_length {A B : Type} (f : A -> result B) (l : list A) (ys : list B) :
  mapM f l = Ok ys -> length ys = length l.
Proof.
  intros H. apply mapM_Ok_inv in H.
  induction H; simpl; congruence.
Qed.

Lemma delta_days_length (ts : list Timestamp) :
  length (delta_days ts) = length ts.
Proof. unfold delta_days. apply length_map. Qed.

(** On a single-column array the transform is [delta_days] on the parsed
    column. *)
Lemma delta_date_feature_column (parse : cell -> result Timestamp)
    (col : Series) (ts : list Timestamp) :
  to_datetime parse col = Ok ts ->
  delta_date_feature parse (column col) = Ok (column (delta_days ts)).
Proof.
  intros H. pose proof (mapM_length _ _ _ H) as Hlen.
  destruct col as [|c col].
  - destruct ts; [reflexivity | discriminate].
  - unfold delta_date_feature.
    change (ncols (column (c :: col))) with 1%nat.
    rewrite transpose_of_column.
    change (mapM (to_datetime parse) [c :: col])
      with (let* y := to_datetime parse (c :: col) in
            let* ys := Ok [] in Ok (y :: ys)).
    rewrite H. cbn [bind map]. f_equal.
    unfold column at 1. rewrite length_map, <- Hlen, <- delta_days_length.
    apply transpose_to_column.
Qed.

Lemma series_max_in (ts : list Timestamp) (m : Z) :
  series_max ts = TS m -> In (TS m) ts.
Proof.
  revert m. induction ts as [|t ts IH]; simpl; intros m; [discriminate|].
  destruct t as [|x]; simpl.
  - intros H. right. auto.
  - destruct (series_max ts) as [|y]; simpl.
    + intros H. left. exact H.
    + intros H. injection H as <-.
      destruct (Z.max_spec x y) as [[_ ->]|[_ ->]]; auto.
Qed.

Lemma series_max_ub (ts : list Timestamp) (d : Z) :
  In (TS d) ts -> exists m, series_max ts = TS m /\ d <= m.
Proof.
  induction ts as [|t ts IH]; simpl; [contradiction|].
  intros [->|Hin].
  - destruct (series_max ts) as [|y]; simpl; eexists; split; eauto; lia.
  - destruct (IH Hin) as (m & -> & Hm).
    destruct t as [|x]; simpl; eexists; split; eauto; lia.
Qed.

Lemma ns_per_day_pos : 0 < ns_per_day.
Proof. reflexivity. Qed.

(** The days component of a non-negative timedelta. *)
Lemma days_floor (a : Z) :
  0 <= a ->
  0 <= a / ns_per_day
  /\ a / ns_per_day * ns_per_day <= a < (a / ns_per_day + 1) * ns_per_day.
Proof.
  intros Ha. pose proof ns_per_day_pos as HD.
  pose proof (Z.div_pos a ns_per_day Ha HD).
  pose proof (Z.mul_div_le a ns_per_day HD).
  pose proof (Z.mul_succ_div_gt a ns_per_day HD).
  lia.
Qed.




Lemma delta_days_nth (ts : list Timestamp) (i : nat) (d : Z) :
  nth_error ts i = Some (TS d) ->
  exists m, series_max ts = TS m /\ d <= m
            /\ nth_error (delta_days ts) i = Some (Some ((m - d) / ns_per_day)).
Proof.
  intros H. destruct (series_max_ub ts d (nth_error_In _ _ H)) as (m & Hm & Hle).
  exists m. repeat split; try assumption.
  unfold delta_days. rewrite Hm.
  rewrite (map_nth_error _ _ _ H). reflexivity.
Qed.

Lemma mapM_const {A B : Type} (f : A -> result B) (l : list A) (ys : list B)
    (a : A) (b : B) :
  (forall x, In x l -> x = a) -> f a = Ok b -> mapM f l = Ok ys ->
  ys = repeat b (length l).
Proof.
  intros Hall Hf H. apply mapM_Ok_inv in H.
  induction H as [|x y l ys Hxy _ IH]; simpl; [reflexivity|].
  rewrite (Hall x) in Hxy by (left; reflexivity).
  rewrite IH by (intros; apply Hall; right; assumption).
  congruence.
Qed.

Lemma delta_days_repeat (d : Z) (n : nat) :
  delta_days (repeat (TS d) n) = repeat (Some 0) n.
Proof.
  destruct n as [|n]; [reflexivity|].
  unfold delta_days.
  assert (Hm : series_max (repeat (TS d) (S n)) = TS d).
  { destruct (series_max_ub (repeat (TS d) (S n)) d) as (m & Hm & _);
      [left; reflexivity|].
    pose proof (series_max_in _ _ Hm) as Hin.
    apply repeat_spec in Hin. congruence. }
  rewrite Hm, map_repeat. cbn [ts_sub dt_days option_map].
  rewrite Z.sub_diag. reflexivity.
Qed.

(** C4. On a single-column array of parseable dates, the date-delta
    transform returns one value per input value; for each value it is the
    whole number of days from that value to the maximum date of the
    column; and when every value of the column is the same date (the
    imputed 2010-01-01 for one), every delta is 0. *)
Theorem delta_date_feature_days (parse : cell -> result Timestamp)
    (col : Series) (ts : list Timestamp) :
  to_datetime parse col = Ok ts ->
  delta_date_feature parse (column col) = Ok (column (delta_days ts))
  /\ length (delta_days ts) = length col
  /\ (forall i d, nth_error ts i = Some (TS d) ->
        exists m k,
          series_max ts = TS m /\ In (TS m) ts
          /\ (forall d', In (TS d') ts -> d' <= m)
          /\ nth_error (delta_days ts) i = Some (Some k)
          /\ 0 <= k
          /\ k * ns_per_day <= m - d < (k + 1) * ns_per_day)
  /\ (forall c d, (forall c', In c' col -> c' = c) -> parse c = Ok (TS d) ->
        delta_days ts = repeat (Some 0) (length col)).
Proof.
  intros H. split; [apply delta_date_feature_column, H|].
  split; [rewrite delta_days_length; eapply mapM_length, H|].
  split.
  - intros i d Hi.
    destruct (delta_days_nth ts i d Hi) as (m & Hm & Hle & Hk).
    exists m, ((m - d) / ns_per_day).
    split; [exact Hm|]. split; [apply series_max_in, Hm|]. split.
    { intros d' Hd'. destruct (series_max_ub ts d' Hd') as (m' & Hm' & Hle').
      congruence. }
    split; [exact Hk|]. apply days_floor. lia.
  - intros c d Hall Hc.
    rewrite (mapM_const parse col ts c (TS d) Hall Hc H).
    apply delta_days_repeat.
Qed.

Lemma delta_date_feature_days_witness :
  to_datetime Scenario.iso_to_datetime Scenario.last_review
  = Ok Scenario.last_review_ts
  /\ delta_date_feature Scenario.iso_to_datetime (column Scenario.last_review)
     = Ok (column (delta_days Scenario.last_review_ts)).
Proof.
  split; [vm_compute; reflexivity|].
  apply (delta_date_feature_days Scenario.iso_to_datetime).
  vm_compute; reflexivity.
Defined.





End DeltaDateFacts.

(** ** The feature-importance chart *)

Module PlotFacts.
Import Pandas TrainRandomForest.


Lemma slice_bound_small (len : nat) (k : nat) :
  (k <= len)%nat -> slice_bound len (Z.of_nat k) = k.
Proof.
  intros H. unfold slice_bound.
  destruct (Z.ltb_spec (Z.of_nat k) 0); lia.
Qed.

Lemma pred_length (names : list string) :
  names <> [] ->
  (Z.of_nat (length names) - 1)%Z = Z.of_nat (length names - 1).
Proof.
  destruct names as [|c names]; [congruence|]. simpl length. lia.
Qed.

(** With a name to spare and enough importances, the aggregation is the
    first [N - 1] importances followed by the sum of the rest. *)
Lemma feat_imp_split (imps : list Q) (names : list string) :
  names <> [] -> (length names - 1 <= length imps)%nat ->
  feat_imp imps names
  = firstn (length names - 1) imps ++ [py_sum (skipn (length names - 1) imps)].
Proof.
  intros Hne Hlen. unfold feat_imp, slice_to, slice_from.
  rewrite (pred_length names Hne), slice_bound_small by exact Hlen.
  reflexivity.
Qed.

Lemma feat_imp_length (imps : list Q) (names : list string) :
  names <> [] -> (length names - 1 <= length imps)%nat ->
  length (feat_imp imps names) = length names.
Proof.
  intros Hne Hlen. rewrite feat_imp_split by assumption.
  rewrite length_app, firstn_length_le by exact Hlen. simpl.
  destruct names; [congruence | simpl; lia].
Qed.

Lemma combine_seq_fst {A : Type} (l : list A) (s : nat) :
  map fst (combine (seq s (length l)) l) = seq s (length l).
Proof.
  revert s; induction l as [|x l IH]; simpl; intros s; [reflexivity|].
  rewrite IH. reflexivity.
Qed.

Lemma combine_seq_snd {A : Type} (l : list A) (s : nat) :
  map snd (combine (seq s (length l)) l) = l.
Proof.
  revert s; induction l as [|x l IH]; simpl; intros s; [reflexivity|].
  rewrite IH. reflexivity.
Qed.

(** The chart, when it is produced, carries the aggregated importances
    as its bars and the names as its labels. *)
Lemma plot_Ok_inv (imps : list Q) (names : list string) (fig : Axes) :
  plot_feature_importance imps names = Ok fig ->
  map snd (bars fig) = feat_imp imps names
  /\ map fst (bars fig) = seq 0 (length (feat_imp imps names))
  /\ xticks fig = seq 0 (length (feat_imp imps names))
  /\ xticklabels fig = names
  /\ rotation fig = 90%Z.
Proof.
  unfold plot_feature_importance, set_xticklabels. simpl.
  destruct (_ || _); intros H; [|discriminate].
  injection H as <-. simpl.
  rewrite combine_seq_snd, combine_seq_fst. auto.
Qed.

Lemma five_groups (m : Z) : length (transformers (make_preprocessor m)) = 5%nat.
Proof. reflexivity. Qed.

(** C1, as stated, fails on the training stage's own feature names: the
    chart has eleven labels, and the router has five groups. *)
Lemma five_labels_fails :
  exists fig,
    plot_feature_importance Scenario.fitted_importances Scenario.pipeline_features
    = Ok fig
    /\ length (xticklabels fig) = 11%nat
    /\ length (bars fig) = 11%nat
    /\ length (xticklabels fig) <> length (transformers (make_preprocessor 5)).
Proof.
  eexists. split; [vm_compute; reflexivity|].
  simpl. repeat split. discriminate.
Qed.

(** C1, amended. For every importance vector and every non-empty list
    of [N] feature names with at least [N - 1] importances, the chart is
    produced and has exactly [N] bars, at positions [0..N-1], and the [N]
    names as x labels, in order, turned by 90 degrees: the first [N - 1]
    bars are the first [N - 1] importances and the last is the sum of the
    others. [N] is the number of names passed: for the names the
    training stage builds it is 11, the routed input columns in router
    order. *)
Theorem plot_feature_importance_labels (imps : list Q) (names : list string) :
  names <> [] ->
  (length names - 1 <= length imps)%nat ->
  exists fig,
    plot_feature_importance imps names = Ok fig
    /\ xticklabels fig = names
    /\ xticks fig = seq 0 (length names)
    /\ length (bars fig) = length names
    /\ map fst (bars fig) = seq 0 (length names)
    /\ map snd (bars fig)
       = firstn (length names - 1) imps ++ [py_sum (skipn (length names - 1) imps)]
    /\ rotation fig = 90%Z
    /\ (forall rf_config m built,
          get_inference_pipeline rf_config m = Ok built ->
          names = snd built ->
          names = routed (preprocessor (fst built)) /\ length names = 11%nat).
Proof.
  intros Hne Hlen.
  pose proof (feat_imp_length imps names Hne Hlen) as L.
  destruct (plot_feature_importance imps names) as [fig|e] eqn:E.
  - apply plot_Ok_inv in E as (Hb & Hx & Ht & Hl & Hr).
    rewrite L in Hx, Ht. exists fig. split; [reflexivity|].
    split; [exact Hl|]. split; [exact Ht|]. split.
    { rewrite <- (length_map fst), Hx. apply length_seq. }
    split; [exact Hx|]. split.
    { rewrite Hb. apply feat_imp_split; assumption. }
    split; [exact Hr|].
    intros rf_config m built Hb' ->. unfold get_inference_pipeline in Hb'.
    destruct (new_RandomForestRegressor rf_config) as [rf|e]; simpl in Hb';
      [|discriminate].
    injection Hb' as <-. split; reflexivity.
  - exfalso. unfold plot_feature_importance, set_xticklabels in E.
    simpl in E. rewrite length_seq, L, Nat.eqb_refl in E. discriminate.
Qed.

Lemma plot_feature_importance_labels_witness :
  Scenario.pipeline_features <> []
  /\ (length Scenario.pipeline_features - 1
      <= length Scenario.fitted_importances)%nat
  /\ exists fig,
       plot_feature_importance Scenario.fitted_importances
         Scenario.pipeline_features = Ok fig
       /\ xticklabels fig = Scenario.pipeline_features.
Proof.
  assert (H1 : Scenario.pipeline_features <> []) by (vm_compute; discriminate).
  assert (H2 : (length Scenario.pipeline_features - 1
                <= length Scenario.fitted_importances)%nat)
    by (vm_compute; lia).
  split; [exact H1|]. split; [exact H2|].
  destruct (plot_feature_importance_labels Scenario.fitted_importances
              Scenario.pipeline_features H1 H2) as (fig & Hf & Hl & _).
  exists fig. split; assumption.
Defined.






End PlotFacts.

(** ** The column router *)

Module RouterFacts.
Import Pandas TrainRandomForest.

Lemma skipn_skipn_1 {A : Type} (i : nat) (l : list A) :
  skipn i (skipn 1 l) = skipn (S i) l.
Proof. destruct l; [destruct i|]; reflexivity. Qed.

(** Row [i] of a transposition gathers the [i]-th entry of every list. *)
Lemma nth_error_transpose {A : Type} (n : nat) (ls : list (list A)) (i : nat) :
  (i < n)%nat ->
  nth_error (transpose n ls) i = Some (heads (map (skipn i) ls)).
Proof.
  revert ls i; induction n as [|n IH]; intros ls i Hi; [lia|].
  destruct i as [|i]; simpl.
  - rewrite (map_ext (skipn 0) (fun l => l)) by reflexivity.
    rewrite map_id. reflexivity.
  - rewrite IH by lia. rewrite map_map.
    rewrite (map_ext _ _ (skipn_skipn_1 i)). reflexivity.
Qed.

Lemma firstn_skipn_nth {A : Type} (i : nat) (l : list A) (x : A) :
  nth_error l i = Some x -> firstn 1 (skipn i l) = [x].
Proof.
  revert l; induction i as [|i IH]; intros [|y l] H; try discriminate.
  - injection H as <-. reflexivity.
  - apply (IH l H).
Qed.





Section Router.
Variable to_datetime_scalar : cell -> result Timestamp.
Variable sk_transform : Transformer -> Matrix -> result Matrix.



(** The date group on a [last_review] column with every value missing:
    the imputer writes the date 2010-01-01 everywhere and every delta
    is 0. *)
Lemma date_imputer_all_missing (n : nat) (d : Z) :
  to_datetime_scalar date_sentinel = Ok (TS d) ->
  transform to_datetime_scalar sk_transform date_imputer (column (repeat NA n))
  = Ok (column (repeat (Num 0%float) n)).
Proof.
  intros Hd. unfold date_imputer. cbn [transform snd bind].
  assert (T : to_datetime to_datetime_scalar (repeat date_sentinel n)
              = Ok (repeat (TS d) n)).
  { unfold to_datetime. induction n as [|k IH]; [reflexivity|].
    cbn [repeat mapM]. rewrite Hd, IH. reflexivity. }
  assert (F : fillna date_sentinel (column (repeat NA n))
              = column (repeat date_sentinel n)).
  { unfold fillna, column. rewrite !map_repeat. reflexivity. }
  rewrite F, (DeltaDateFacts.delta_date_feature_column _ _ _ T).
  rewrite DeltaDateFacts.delta_days_repeat. cbn [bind].
  unfold column. rewrite !map_repeat. reflexivity.
Qed.


End Router.


End RouterFacts.

(** ** The training run *)

Module GoFacts.
Import Pandas TrainRandomForest.

Lemma In_remove_nth {A : Type} (i : nat) (l : list A) (p c : A) :
  nth_error l i = Some p -> c <> p ->
  (In c (remove_nth i l) <-> In c l).
Proof.
  intros Hp Hne. apply nth_error_split in Hp as (l1 & l2 & -> & <-).
  unfold remove_nth.
  rewrite firstn_app, Nat.sub_diag, firstn_all, app_nil_r.
  replace (S (length l1)) with (length l1 + 1)%nat by lia.
  rewrite skipn_app, skipn_all2 by lia.
  replace (length l1 + 1 - length l1)%nat with 1%nat by lia. simpl.
  rewrite !in_app_iff. simpl. split; [tauto|].
  intros [H|[H|H]]; [tauto | congruence | tauto].
Qed.


Section Run.
Variable files : gmap string string.
Variable json_load : string -> result pyvalue.
Variable read_artifact : option string -> result DataFrame.
Variable train_test_split :
  DataFrame -> Series -> option float -> option Series -> Z -> result Split.
Variable fit : InferencePipeline -> DataFrame -> Series -> result (list Q).



(** The default of [--rf_config] is used as a path: without a file of
    that name the run stops at line 43. *)
Lemma default_rf_config_is_a_path (argv : Argv) (args : Args) :
  parse_args argv = Ok args ->
  given_rf_config argv = None ->
  files !! "{}" = None ->
  rf_config args = "{}"
  /\ go files json_load read_artifact train_test_split fit args
     = Raise (FileNotFoundError "{}").
Proof.
  unfold parse_args. intros H Hnone Hfile.
  destruct (given_output_artifact argv); [|discriminate].
  injection H as <-. simpl. rewrite Hnone. simpl. split; [reflexivity|].
  unfold go, load_rf_config, open_. simpl.
  rewrite Hfile. reflexivity.
Qed.


End Run.


(** C9 at a run without [--rf_config], in a directory with no file named
    by the default: the flag's default is the text of an empty JSON object,
    [go] opens it as a path, and the run raises instead of going on with
    an empty configuration. *)
Theorem default_rf_config_not_loaded :
  rf_config (Scenario.args_of Scenario.argv_no_rf_config) = "{}"
  /\ Scenario.json_load_table "{}" = Ok (PyDict ∅)
  /\ Scenario.local_files !! "{}" = None
  /\ load_rf_config Scenario.local_files Scenario.json_load_table
       (Scenario.args_of Scenario.argv_no_rf_config)
     = Raise (FileNotFoundError "{}")
  /\ go Scenario.local_files Scenario.json_load_table Scenario.read_trainval
       Scenario.split_all Scenario.fit_fixed
       (Scenario.args_of Scenario.argv_no_rf_config)
     = Raise (FileNotFoundError "{}").
Proof. repeat split; vm_compute; reflexivity. Qed.


End GoFacts.

(** ** More on the cleaning stage *)

Module CleaningMore.
Import Pandas PandasFacts BasicCleaning BasicCleaningFacts.

Lemma mapM_Raise_inv {A B : Type} (f : A -> result B) (l : list A) (e : exn) :
  mapM f l = Raise e -> exists x, In x l /\ f x = Raise e.
Proof.
  induction l as [|x l IH]; simpl; [discriminate|].
  destruct (f x) as [y|e'] eqn:E; simpl.
  - destruct (mapM f l) as [ys|e'']; simpl; [discriminate|].
    intros H. destruct (IH H) as (x' & Hin & Hx'). eauto.
  - intros H. injection H as <-. eauto.
Qed.

Lemma cmp_scalar_Raise (op : float -> bool) (s : Series) (e : exn) :
  cmp_scalar op s = Raise e -> e = TypeError.
Proof.
  intros H. apply mapM_Raise_inv in H as (c & _ & Hc).
  destruct c; [discriminate | congruence].
Qed.

Lemma between_Raise (s : Series) (l r : float) (e : exn) :
  between s l r = Raise e -> e = TypeError.
Proof.
  unfold between, ge, le.
  destruct (cmp_scalar (fun x => PrimFloat.leb l x) s) eqn:E1; simpl.
  - destruct (cmp_scalar (fun x => PrimFloat.leb x r) s) eqn:E2; simpl;
      [discriminate|].
    intros H. injection H as <-. eapply cmp_scalar_Raise, E2.
  - intros H. injection H as <-. eapply cmp_scalar_Raise, E1.
Qed.


Lemma getitem_Raise (df : DataFrame) (col : string) (e : exn) :
  getitem df col = Raise e -> e = KeyError col /\ ~ In col (columns df).
Proof.
  unfold getitem. destruct (get_loc col (columns df)) eqn:E; [discriminate|].
  intros H. injection H as <-. split; [reflexivity|].
  apply get_loc_None, E.
Qed.

Lemma price_filter_Raise (lo hi : float) (df : DataFrame) (e : exn) :
  price_filter lo hi df = Raise e ->
  (e = KeyError "price" /\ ~ In "price" (columns df))
  \/ (e = TypeError /\ In "price" (columns df)).
Proof.
  unfold price_filter.
  destruct (getitem df "price") as [s|e'] eqn:G; simpl.
  - destruct (between s lo hi) as [m|e'] eqn:B; simpl; [discriminate|].
    intros H. injection H as <-. right. split; [eapply between_Raise, B|].
    apply getitem_Ok_inv in G as (i & Hi & _).
    eapply nth_error_In, get_loc_nth, Hi.
  - intros H. injection H as <-. left. eapply getitem_Raise, G.
Qed.

Lemma geo_filter_Raise (df : DataFrame) (e : exn) :
  geo_filter df = Raise e ->
  e = KeyError "longitude" \/ e = KeyError "latitude" \/ e = TypeError.
Proof.
  unfold geo_filter.
  destruct (getitem df "longitude") as [lon|e1] eqn:G1; simpl;
    [|intros H; injection H as <-; left; eapply getitem_Raise, G1].
  destruct (between lon lon_min lon_max) as [m1|e1] eqn:B1; simpl;
    [|intros H; injection H as <-; right; right; eapply between_Raise, B1].
  destruct (getitem df "latitude") as [lat|e1] eqn:G2; simpl;
    [|intros H; injection H as <-; right; left; eapply getitem_Raise, G2].
  destruct (between lat lat_min lat_max) as [m2|e1] eqn:B2; simpl;
    [discriminate|].
  intros H; injection H as <-; right; right; eapply between_Raise, B2.
Qed.

(** X1. The cleaning filter raises nothing but a [KeyError] for one of
    [price], [longitude], [latitude], or a [TypeError]. *)
Theorem go_raises_only (lo hi : float) (df : DataFrame) (e : exn) :
  go lo hi df = Raise e ->
  e = KeyError "price" \/ e = KeyError "longitude"
  \/ e = KeyError "latitude" \/ e = TypeError.
Proof.
  unfold go. destruct (price_filter lo hi df) as [d|e'] eqn:P; simpl.
  - intros H. apply geo_filter_Raise in H. tauto.
  - intros H. injection H as <-. apply price_filter_Raise in P. tauto.
Qed.

Lemma go_raises_only_witness :
  go 10 1000 MoreScenario.unpriced_listings = Raise (KeyError "price")
  /\ (KeyError "price" = KeyError "price"
      \/ KeyError "price" = KeyError "longitude"
      \/ KeyError "price" = KeyError "latitude"
      \/ KeyError "price" = TypeError).
Proof.
  split; [vm_compute; reflexivity|].
  apply (go_raises_only 10 1000 MoreScenario.unpriced_listings).
  vm_compute; reflexivity.
Defined.

(** X2. The cleaning filter raises [KeyError] for [price] exactly when
    the frame has no [price] column, whatever its other columns and
    whatever the bounds. *)
Theorem go_missing_price (lo hi : float) (df : DataFrame) :
  go lo hi df = Raise (KeyError "price") <-> ~ In "price" (columns df).
Proof.
  split.
  - unfold go. destruct (price_filter lo hi df) as [d|e'] eqn:P; simpl.
    + intros H. apply geo_filter_Raise in H.
      destruct H as [H|[H|H]]; discriminate.
    + intros H. injection H as ->. apply price_filter_Raise in P.
      destruct P as [[_ P]|[P _]]; [exact P | discriminate].
  - intros H. apply get_loc_None in H.
    unfold go, price_filter, getitem. rewrite H. reflexivity.
Qed.

Lemma go_missing_price_witness :
  ~ In "price" (columns MoreScenario.unpriced_listings)
  /\ go 10 1000 MoreScenario.unpriced_listings = Raise (KeyError "price").
Proof.
  assert (H : ~ In "price" (columns MoreScenario.unpriced_listings)).
  { apply get_loc_None. vm_compute. reflexivity. }
  split; [exact H|].
  apply (proj2 (go_missing_price 10 1000 MoreScenario.unpriced_listings) H).
Defined.



(** X4. Cleaning a cleaned frame again, with other price bounds, never
    raises and only applies the new price bounds: the result keeps the
    header and is the rows of the cleaned frame whose price is within the
    new bounds. *)
Theorem go_again (lo hi lo' hi' : float) (df out : DataFrame) :
  go lo hi df = Ok out ->
  exists ip,
    get_loc "price" (columns out) = Some ip
    /\ go lo' hi' out
       = Ok {| columns := columns out;
               rows := List.filter (fun r => in_range lo' hi' (iloc r ip))
                                   (rows out) |}.
Proof.
  intros H. apply go_Ok_inv in H as (ip & ilon & ilat & H). simpl in H.
  destruct H as (Hip & Hlon & Hlat & Np & Nlon & Nlat & ->).
  set (priced := List.filter (fun r => in_range lo hi (iloc r ip)) (rows df)) in *.
  set (full := List.filter (complete (length (columns df))) priced) in *.
  set (boxed := List.filter (in_box ilon ilat) full).
  exists ip. split; [exact Hip|]. simpl.
  set (again := List.filter (fun r => in_range lo' hi' (iloc r ip)) boxed).
  assert (Hf : List.filter (complete (length (columns df))) again = again).
  { apply filter_all. unfold again, boxed.
    do 2 apply Forall_filter_keep. apply Forall_filter_true. }
  assert (Hb : List.filter (in_box ilon ilat) again = again).
  { apply filter_all. unfold again.
    apply Forall_filter_keep. apply Forall_filter_true. }
  rewrite (go_num lo' hi' _ ip ilon ilat); simpl; fold again;
    rewrite ?Hf, ?Hb; try assumption; try reflexivity.
  - unfold boxed, full, priced. do 3 apply Forall_filter_keep. exact Np.
  - unfold again, boxed. do 2 apply Forall_filter_keep. exact Nlon.
  - unfold again, boxed. do 2 apply Forall_filter_keep. exact Nlat.
Qed.

Lemma go_again_witness :
  go 10 1000 Scenario.raw_listings = Ok Scenario.clean_listings
  /\ exists ip,
       get_loc "price" (columns Scenario.clean_listings) = Some ip
       /\ go 100 200 Scenario.clean_listings
          = Ok {| columns := columns Scenario.clean_listings;
                  rows := List.filter (fun r => in_range 100 200 (iloc r ip))
                                      (rows Scenario.clean_listings) |}.
Proof.
  split; [vm_compute; reflexivity|].
  apply (go_again 10 1000 100 200 Scenario.raw_listings).
  vm_compute; reflexivity.
Defined.

(** Every row the filter keeps has a price within the bounds. *)
Lemma go_output_rows_in_range (lo hi : float) (df out : DataFrame) :
  go lo hi df = Ok out ->
  forall r, In r (rows out) ->
  exists p, PrimFloat.leb lo p = true /\ PrimFloat.leb p hi = true.
Proof.
  intros H r Hr. apply go_Ok_inv in H as (ip & ilon & ilat & H). simpl in H.
  destruct H as (_ & _ & _ & _ & _ & _ & ->). simpl in Hr.
  apply filter_In in Hr as [Hr _]. apply filter_In in Hr as [Hr _].
  apply filter_In in Hr as [_ Hr].
  apply in_range_inv in Hr as (p & _ & ? & ?). eauto.
Qed.

Lemma SFcompare_refl (x : SpecFloat.spec_float) :
  x <> SpecFloat.S754_nan -> SpecFloat.SFcompare x x = Some Eq.
Proof.
  destruct x as [s|s| |s m e]; simpl; intros H; try congruence.
  - destruct s; reflexivity.
  - rewrite Z.compare_refl, Pos.compare_cont_refl. destruct s; reflexivity.
Qed.

Lemma is_nan_spec (x : float) :
  PrimFloat.is_nan x = true -> Prim2SF x = SpecFloat.S754_nan.
Proof.
  unfold PrimFloat.is_nan. rewrite FloatAxioms.eqb_spec. unfold SpecFloat.SFeqb.
  intros H. destruct (Prim2SF x) eqn:E; try reflexivity;
    rewrite SFcompare_refl in H by discriminate; discriminate.
Qed.

Lemma leb_nan_l (x y : float) :
  PrimFloat.is_nan x = true -> PrimFloat.leb x y = false.
Proof.
  intros H. rewrite FloatAxioms.leb_spec, (is_nan_spec x H). reflexivity.
Qed.

Lemma leb_nan_r (x y : float) :
  PrimFloat.is_nan y = true -> PrimFloat.leb x y = false.
Proof.
  intros H. rewrite FloatAxioms.leb_spec, (is_nan_spec y H).
  unfold SpecFloat.SFleb. destruct (Prim2SF x); reflexivity.
Qed.

(** X5. With a price bound that is NaN, the cleaning filter keeps no
    row. *)
Theorem go_nan_bound (lo hi : float) (df out : DataFrame) :
  go lo hi df = Ok out ->
  PrimFloat.is_nan lo = true \/ PrimFloat.is_nan hi = true ->
  rows out = [].
Proof.
  intros H Hnan. pose proof (go_output_rows_in_range lo hi df out H) as R.
  clear H. rename R into H.
  destruct (rows out) as [|r rs]; [reflexivity|]. exfalso.
  destruct (H r (or_introl eq_refl)) as (p & Hlo & Hhi).
  destruct Hnan as [N|N].
  - rewrite (leb_nan_l lo p N) in Hlo. discriminate.
  - rewrite (leb_nan_r p hi N) in Hhi. discriminate.
Qed.

Lemma go_nan_bound_witness :
  go PrimFloat.nan 1000 Scenario.raw_listings
  = Ok {| columns := columns Scenario.raw_listings; rows := [] |}
  /\ rows {| columns := columns Scenario.raw_listings; rows := [] |} = [].
Proof.
  split; [vm_compute; reflexivity|].
  apply (go_nan_bound PrimFloat.nan 1000 Scenario.raw_listings).
  - vm_compute; reflexivity.
  - left. vm_compute; reflexivity.
Defined.

End CleaningMore.

(** ** More on the date-delta transform *)

Module DeltaDateMore.
Import Pandas TrainRandomForest Vocabulary DeltaDateFacts.
Local Open Scope Z_scope.

Lemma length_heads {A : Type} (k : nat) (X : list (list A)) :
  rectangular (S k) X -> length (heads X) = length X.
Proof.
  unfold heads. induction 1 as [|r X Hr _ IH]; simpl; [reflexivity|].
  destruct r; [discriminate|]. simpl. rewrite IH. reflexivity.
Qed.

Lemma rectangular_tails {A : Type} (k : nat) (X : list (list A)) :
  rectangular (S k) X -> rectangular k (map (skipn 1) X).
Proof.
  unfold rectangular. intros H. apply List.Forall_map.
  eapply List.Forall_impl; [|exact H].
  intros [|x r] E; simpl in *; [discriminate|].
  injection E as E. exact E.
Qed.

(** The columns of a rectangular array are as long as the array. *)
Lemma transpose_lengths {A : Type} (m : nat) (X : list (list A)) :
  rectangular m X ->
  Forall (fun c => length c = length X) (transpose m X).
Proof.
  revert X; induction m as [|k IH]; intros X H; simpl; [constructor|].
  constructor.
  - apply (length_heads k), H.
  - rewrite <- (length_map (skipn 1) X). apply IH, rectangular_tails, H.
Qed.

Lemma length_transpose {A : Type} (n : nat) (X : list (list A)) :
  length (transpose n X) = n.
Proof.
  revert X; induction n as [|k IH]; intros X; simpl; [reflexivity|].
  rewrite IH. reflexivity.
Qed.

Lemma nth_error_heads {A : Type} (k : nat) (L : list (list A)) (j : nat)
    (x : A) (l : list A) :
  rectangular (S k) L ->
  nth_error L j = Some (x :: l) -> nth_error (heads L) j = Some x.
Proof.
  unfold heads. intros H. revert j.
  induction H as [|r L Hr _ IH]; intros j Hj; [destruct j; discriminate|].
  destruct r as [|y r]; [discriminate|]. simpl.
  destruct j as [|j]; simpl in *.
  - congruence.
  - apply IH, Hj.
Qed.

Lemma Forall2_nth_error {A B : Type} (R : A -> B -> Prop) (l : list A)
    (l' : list B) (j : nat) (x : A) :
  Forall2 R l l' -> nth_error l j = Some x ->
  exists y, nth_error l' j = Some y /\ R x y.
Proof.
  intros H. revert j. induction H as [|a b l l' Hab _ IH]; intros j Hj.
  - destruct j; discriminate.
  - destruct j as [|j]; simpl in *.
    + injection Hj as <-. eauto.
    + apply IH, Hj.
Qed.

Lemma get_column_cons {A : Type} (j : nat) (r : list A) (X : list (list A)) :
  get_column j (r :: X) = firstn 1 (skipn j r) ++ get_column j X.
Proof. reflexivity. Qed.

(** Transposing back: column [j] of the transposition of the lists [L]
    is the list [j]. *)
Lemma get_column_transpose {A : Type} (n : nat) (L : list (list A)) (j : nat)
    (l : list A) :
  rectangular n L -> nth_error L j = Some l ->
  get_column j (transpose n L) = l.
Proof.
  revert L l; induction n as [|k IH]; intros L l H Hj.
  - apply nth_error_In in Hj. unfold rectangular in H.
    rewrite List.Forall_forall in H. apply H in Hj.
    destruct l; [reflexivity | discriminate].
  - assert (Hl : length l = S k).
    { apply nth_error_In in Hj. unfold rectangular in H.
      rewrite List.Forall_forall in H. apply H, Hj. }
    destruct l as [|x l]; [discriminate|].
    change (transpose (S k) L) with (heads L :: transpose k (map (skipn 1) L)).
    rewrite get_column_cons.
    rewrite (RouterFacts.firstn_skipn_nth j (heads L) x)
      by (eapply nth_error_heads; eauto).
    simpl. f_equal.
    apply (IH (map (skipn 1) L) l (rectangular_tails k L H)).
    rewrite nth_error_map, Hj. reflexivity.
Qed.

(** X6. On a rectangular array of dates with at least one row, the
    transform works column by column: the output has as many rows as the
    input, and its column [j] is made of the deltas of the input's column
    [j] to that column's own maximum. *)
Theorem delta_date_feature_columnwise (parse : cell -> result Timestamp)
    (dates : Matrix) (out : list (list (option Z))) :
  rectangular (ncols dates) dates ->
  delta_date_feature parse dates = Ok out ->
  length out = length dates
  /\ forall j, (j < ncols dates)%nat ->
       exists ts, to_datetime parse (get_column j dates) = Ok ts
                  /\ get_column j out = delta_days ts.
Proof.
  intros Hrect H. unfold delta_date_feature in H.
  apply bind_Ok_inv in H as (tss & Htss & H). injection H as <-.
  split; [apply length_transpose|].
  intros j Hj.
  pose proof (RouterFacts.nth_error_transpose (ncols dates) dates j Hj) as Hcol.
  fold (get_column j dates) in Hcol.
  apply mapM_Ok_inv in Htss.
  destruct (Forall2_nth_error _ _ _ j _ Htss Hcol) as (ts & Hts & Hparse).
  exists ts. split; [exact Hparse|].
  apply get_column_transpose.
  - unfold rectangular. apply List.Forall_map.
    pose proof (transpose_lengths (ncols dates) dates Hrect) as Hlen.
    clear Hcol Hts Hparse.
    induction Htss as [|c t cs tss' Hc _ IH]; constructor.
    + rewrite delta_days_length, (mapM_length _ _ _ Hc).
      apply (Forall_inv Hlen).
    + apply IH, (Forall_inv_tail Hlen).
  - rewrite nth_error_map, Hts. reflexivity.
Qed.

Lemma delta_date_feature_columnwise_witness :
  rectangular (ncols MoreScenario.two_columns) MoreScenario.two_columns
  /\ delta_date_feature Scenario.iso_to_datetime MoreScenario.two_columns
     = Ok [[Some 45; Some 2]; [Some 0; None]; [Some 3472; Some 0]]
  /\ length [[Some 45; Some 2]; [Some 0; None]; [Some 3472; Some 0]]
     = length MoreScenario.two_columns.
Proof.
  assert (R : rectangular (ncols MoreScenario.two_columns)
                MoreScenario.two_columns)
    by (repeat constructor).
  split; [exact R|]. split; [vm_compute; reflexivity|].
  apply (delta_date_feature_columnwise Scenario.iso_to_datetime
           MoreScenario.two_columns _ R).
  vm_compute; reflexivity.
Defined.

Lemma series_max_all_NaT {A : Type} (l : list A) :
  series_max (map (fun _ => NaT) l) = NaT.
Proof. induction l as [|x l IH]; simpl; [reflexivity | exact IH]. Qed.

Lemma map_const_repeat {A B : Type} (b : B) (l : list A) :
  map (fun _ => b) l = repeat b (length l).
Proof. induction l as [|x l IH]; simpl; [reflexivity | rewrite IH; reflexivity]. Qed.

(** X7. Without imputation, a column whose values are all missing comes
    out as NaN in every row, not as 0: the maximum of the column is NaT. *)
Theorem delta_date_feature_all_missing (parse : cell -> result Timestamp)
    (col : Series) :
  (forall c, In c col -> parse c = Ok NaT) ->
  delta_date_feature parse (column col)
  = Ok (column (repeat None (length col))).
Proof.
  intros H.
  assert (T : to_datetime parse col = Ok (map (fun _ => NaT) col)).
  { apply mapM_map, List.Forall_forall, H. }
  rewrite (delta_date_feature_column parse col _ T). do 2 f_equal.
  unfold delta_days. rewrite series_max_all_NaT, map_map.
  apply map_const_repeat.
Qed.

Lemma delta_date_feature_all_missing_witness :
  (forall c, In c [NA; NA; NA] -> Scenario.iso_to_datetime c = Ok NaT)
  /\ delta_date_feature Scenario.iso_to_datetime (column [NA; NA; NA])
     = Ok [[None]; [None]; [None]].
Proof.
  assert (H : forall c, In c [NA; NA; NA] -> Scenario.iso_to_datetime c = Ok NaT).
  { intros c Hc. simpl in Hc.
    repeat (destruct Hc as [<-|Hc]; [vm_compute; reflexivity|]).
    contradiction. }
  split; [exact H|].
  apply (delta_date_feature_all_missing Scenario.iso_to_datetime [NA; NA; NA] H).
Defined.

Lemma series_max_filter (ts : list Timestamp) :
  series_max (List.filter is_TS ts) = series_max ts.
Proof.
  induction ts as [|t ts IH]; simpl; [reflexivity|].
  destruct t; simpl; rewrite IH; reflexivity.
Qed.

Lemma series_max_NaT (ts : list Timestamp) :
  series_max ts = NaT -> List.filter is_TS ts = [].
Proof.
  induction ts as [|t ts IH]; simpl; [reflexivity|].
  destruct t as [|x]; simpl; [exact IH|].
  destruct (series_max ts); discriminate.
Qed.

(** X8. Missing values take no part in the deltas of the others:
    dropping the rows with a missing date before the transform, or
    dropping the NaN rows after it, gives the same deltas. *)
Theorem delta_days_skips_missing (ts : list Timestamp) :
  List.filter has_value (delta_days ts) = delta_days (List.filter is_TS ts).
Proof.
  unfold delta_days. rewrite series_max_filter.
  destruct (series_max ts) as [|a] eqn:M.
  - rewrite (series_max_NaT ts M). simpl.
    clear M. induction ts as [|t ts IH]; simpl; [reflexivity | exact IH].
  - clear M. induction ts as [|t ts IH]; simpl; [reflexivity|].
    destruct t; simpl; [exact IH | f_equal; exact IH].
Qed.

(** X9. On a column with at least one date, no delta is negative and
    the delta 0 occurs: it is the delta of the most recent date. *)
Theorem delta_days_zero_at_max (parse : cell -> result Timestamp)
    (col : Series) (ts : list Timestamp) (d : Z) :
  to_datetime parse col = Ok ts ->
  In (TS d) ts ->
  delta_date_feature parse (column col) = Ok (column (delta_days ts))
  /\ In (Some 0) (delta_days ts)
  /\ forall k, In (Some k) (delta_days ts) -> 0 <= k.
Proof.
  intros H Hd. split; [apply delta_date_feature_column, H|].
  destruct (series_max_ub ts d Hd) as (m & Hm & _).
  unfold delta_days. rewrite Hm. split.
  - apply in_map_iff. exists (TS m). split; [|apply series_max_in, Hm].
    simpl. rewrite Z.sub_diag. reflexivity.
  - intros k Hk. apply in_map_iff in Hk as (t & Ht & Hin).
    destruct t as [|x]; [discriminate|]. simpl in Ht. injection Ht as <-.
    destruct (series_max_ub ts x Hin) as (m' & Hm' & Hle).
    assert (m' = m) by congruence. subst m'.
    apply Z.div_pos; [lia | exact ns_per_day_pos].
Qed.

Lemma delta_days_zero_at_max_witness :
  to_datetime Scenario.iso_to_datetime Scenario.last_review
  = Ok Scenario.last_review_ts
  /\ In (Some 0) (delta_days Scenario.last_review_ts).
Proof.
  split; [vm_compute; reflexivity|].
  apply (delta_days_zero_at_max Scenario.iso_to_datetime Scenario.last_review
           Scenario.last_review_ts 1558396800000000000).
  - vm_compute; reflexivity.
  - left. reflexivity.
Defined.

Lemma series_max_shift (c : Z) (ts : list Timestamp) :
  series_max (map (shift c) ts) = shift c (series_max ts).
Proof.
  induction ts as [|t ts IH]; simpl; [reflexivity|]. rewrite IH.
  destruct t as [|x], (series_max ts) as [|y]; simpl; try reflexivity.
  rewrite Z.add_max_distr_r. reflexivity.
Qed.

(** X10. The deltas depend on the distances between the dates only:
    moving every date of a column by the same amount leaves every delta
    unchanged. *)
Theorem delta_days_shift (c : Z) (ts : list Timestamp) :
  delta_days (map (shift c) ts) = delta_days ts.
Proof.
  unfold delta_days. rewrite series_max_shift, map_map.
  apply map_ext. intros t.
  destruct (series_max ts) as [|m], t as [|x]; simpl; try reflexivity.
  do 2 f_equal. lia.
Qed.

Lemma mapM_Raise_first {A B : Type} (f : A -> result B) (l : list A) (x : A)
    (e : exn) :
  In x l -> f x = Raise e ->
  exists x' e', In x' l /\ f x' = Raise e' /\ mapM f l = Raise e'.
Proof.
  induction l as [|y l IH]; simpl; [contradiction|].
  intros Hin Hx. destruct (f y) as [b|e'] eqn:E.
  - destruct Hin as [->|Hin]; [congruence|].
    destruct (IH Hin Hx) as (x' & e' & Hin' & Hx' & Hm).
    exists x', e'. rewrite Hm. simpl. auto.
  - exists y, e'. simpl. auto.
Qed.

(** X11. One value that [pd.to_datetime] cannot read makes the whole
    call raise: the exception is the parser's, for a value of the column,
    and no delta is returned for the other rows. *)
Theorem delta_date_feature_unparseable (parse : cell -> result Timestamp)
    (col : Series) (c : cell) (e : exn) :
  In c col -> parse c = Raise e ->
  exists c' e',
    In c' col /\ parse c' = Raise e'
    /\ delta_date_feature parse (column col) = Raise e'.
Proof.
  intros Hin Hc.
  destruct (mapM_Raise_first parse col c e Hin Hc) as (c' & e' & Hin' & Hc' & Hm).
  exists c', e'. split; [exact Hin'|]. split; [exact Hc'|].
  destruct col as [|c0 col]; [contradiction|].
  unfold delta_date_feature.
  change (ncols (column (c0 :: col))) with 1%nat.
  rewrite transpose_of_column.
  change (mapM (to_datetime parse) [c0 :: col])
    with (let* y := to_datetime parse (c0 :: col) in
          let* ys := Ok [] in Ok (y :: ys)).
  unfold to_datetime. rewrite Hm. reflexivity.
Qed.

Lemma delta_date_feature_unparseable_witness :
  In (Str "yesterday") MoreScenario.broken_column
  /\ Scenario.iso_to_datetime (Str "yesterday") = Raise ValueError
  /\ exists c' e',
       In c' MoreScenario.broken_column
       /\ Scenario.iso_to_datetime c' = Raise e'
       /\ delta_date_feature Scenario.iso_to_datetime
            (column MoreScenario.broken_column) = Raise e'.
Proof.
  assert (H1 : In (Str "yesterday") MoreScenario.broken_column)
    by (right; left; reflexivity).
  assert (H2 : Scenario.iso_to_datetime (Str "yesterday") = Raise ValueError)
    by (vm_compute; reflexivity).
  split; [exact H1|]. split; [exact H2|].
  apply (delta_date_feature_unparseable Scenario.iso_to_datetime
           MoreScenario.broken_column (Str "yesterday") ValueError H1 H2).
Defined.

End DeltaDateMore.

(** ** More on the feature-importance chart *)

Module PlotMore.
Import Pandas TrainRandomForest PlotFacts.

Lemma slice_bound_nonneg (len : nat) (k : nat) :
  slice_bound len (Z.of_nat k) = Nat.min k len.
Proof.
  unfold slice_bound. destruct (Z.ltb_spec (Z.of_nat k) 0); lia.
Qed.

Lemma length_slice_to {A : Type} (l : list A) (k : nat) :
  length (slice_to l (Z.of_nat k)) = Nat.min k (length l).
Proof.
  unfold slice_to. rewrite slice_bound_nonneg, length_firstn. lia.
Qed.

(** X12. With [N >= 1] names, the aggregation returns
    [min(len(importances), N - 1) + 1] values: the slice is clipped at
    the end of the vector, so fewer than [N - 1] importances give fewer
    than [N] bars. *)
Theorem feat_imp_count (imps : list Q) (names : list string) :
  names <> [] ->
  length (feat_imp imps names)
  = (Nat.min (length imps) (length names - 1) + 1)%nat.
Proof.
  intros Hne. unfold feat_imp.
  rewrite (pred_length names Hne), length_app, length_slice_to.
  simpl. lia.
Qed.

Lemma feat_imp_count_witness :
  Scenario.pipeline_features <> []
  /\ length (feat_imp [1; 2; 3]%Q Scenario.pipeline_features) = 4%nat.
Proof.
  assert (H : Scenario.pipeline_features <> []) by (vm_compute; discriminate).
  split; [exact H|].
  rewrite (feat_imp_count [1; 2; 3]%Q Scenario.pipeline_features H).
  vm_compute. reflexivity.
Defined.

(** X13. With a single feature name the chart has one bar, and it
    carries the sum of all the importances. *)
Theorem plot_single_name (imps : list Q) (name : string) :
  plot_feature_importance imps [name]
  = Ok {| bars := [(0%nat, py_sum imps)]; xticks := [0%nat];
          xticklabels := [name]; rotation := 90 |}.
Proof.
  unfold plot_feature_importance, feat_imp, slice_to, slice_from.
  change (Z.of_nat (length [name]) - 1)%Z with (Z.of_nat 0).
  rewrite slice_bound_nonneg. reflexivity.
Qed.

Lemma slice_bound_minus_1 (n : nat) : slice_bound (S n) (-1) = n.
Proof.
  unfold slice_bound. change (-1 <? 0)%Z with true. cbv iota. lia.
Qed.

(** X14. With no feature name the bound of the slices is [-1]: on a
    vector that ends with [x] the aggregation keeps everything before [x]
    and ends with the sum of [x] alone, and on the empty vector it is the
    single value 0. The chart then has bars and no label. *)
Theorem feat_imp_no_names (init : list Q) (x : Q) :
  feat_imp (init ++ [x]) [] = init ++ [py_sum [x]]
  /\ feat_imp [] [] = [0%Q]
  /\ exists fig,
       plot_feature_importance (init ++ [x]) [] = Ok fig
       /\ xticklabels fig = []
       /\ map snd (bars fig) = init ++ [py_sum [x]].
Proof.
  assert (E : feat_imp (init ++ [x]) [] = init ++ [py_sum [x]]).
  { unfold feat_imp, slice_to, slice_from.
    change (Z.of_nat (length (@nil string)) - 1)%Z with (-1)%Z.
    rewrite length_app, Nat.add_1_r, slice_bound_minus_1.
    rewrite firstn_app, firstn_all, Nat.sub_diag, app_nil_r.
    rewrite skipn_app, skipn_all, Nat.sub_diag. reflexivity. }
  split; [exact E|]. split; [reflexivity|].
  destruct (plot_feature_importance (init ++ [x]) []) as [fig|e] eqn:P.
  - apply plot_Ok_inv in P as (Hb & _ & _ & Hl & _).
    exists fig. rewrite Hb, E. auto.
  - unfold plot_feature_importance, set_xticklabels in P. simpl in P.
    rewrite orb_true_r in P. discriminate.
Qed.

End PlotMore.

(** ** More on the column router *)

Module RouterMore.
Import Pandas TrainRandomForest RouterFacts.

Section Router.
Variable to_datetime_scalar : cell -> result Timestamp.
Variable sk_transform : Transformer -> Matrix -> result Matrix.

Lemma select_columns_missing (df : DataFrame) (cols : list string) (c : string) :
  In c cols -> ~ In c (columns df) -> select_columns df cols = Raise ValueError.
Proof.
  intros Hin Hnot. unfold select_columns.
  assert (G : getitem df c = Raise (KeyError c)).
  { unfold getitem. apply PandasFacts.get_loc_None in Hnot. rewrite Hnot.
    reflexivity. }
  destruct (DeltaDateMore.mapM_Raise_first (getitem df) cols c _ Hin G)
    as (c' & e' & _ & _ & ->).
  reflexivity.
Qed.

(** X15. A frame that lacks a column some group names is refused: the
    router raises, whatever the fitted encoders do and whatever other
    columns the frame has. *)
Theorem column_transform_missing_column (ct : ColumnTransformer)
    (df : DataFrame) (c : string) :
  In c (routed ct) -> ~ In c (columns df) ->
  exists e, column_transform to_datetime_scalar sk_transform ct df = Raise e.
Proof.
  intros Hin Hnot. unfold routed in Hin.
  apply in_flat_map in Hin as (g & Hg & Hc).
  assert (B : block to_datetime_scalar sk_transform df (snd (fst g)) (snd g)
              = Raise ValueError).
  { unfold block. rewrite (select_columns_missing df (snd g) c Hc Hnot).
    reflexivity. }
  destruct (DeltaDateMore.mapM_Raise_first
              (fun e => block to_datetime_scalar sk_transform df
                          (snd (fst e)) (snd e))
              (transformers ct) g ValueError Hg B)
    as (g' & e' & _ & _ & Hm).
  exists e'. unfold column_transform. rewrite Hm. reflexivity.
Qed.




End Router.

Lemma column_transform_missing_column_witness :
  In "room_type" (routed (make_preprocessor 5))
  /\ ~ In "room_type" (columns Scenario.clean_listings)
  /\ exists e,
       column_transform Scenario.iso_to_datetime Scenario.keep_block
         (make_preprocessor 5) Scenario.clean_listings = Raise e.
Proof.
  assert (H1 : In "room_type" (routed (make_preprocessor 5)))
    by (left; reflexivity).
  assert (H2 : ~ In "room_type" (columns Scenario.clean_listings)).
  { apply PandasFacts.get_loc_None. vm_compute. reflexivity. }
  split; [exact H1|]. split; [exact H2|].
  apply (column_transform_missing_column Scenario.iso_to_datetime
           Scenario.keep_block (make_preprocessor 5) Scenario.clean_listings
           "room_type" H1 H2).
Defined.


End RouterMore.

(** ** More on the training run *)

Module GoMore.
Import Pandas TrainRandomForest GoFacts.

Lemma remove_nth_cons {A : Type} (i : nat) (x : A) (l : list A) :
  remove_nth (S i) (x :: l) = x :: remove_nth i l.
Proof. reflexivity. Qed.

Lemma nth_remove_nth_0 {A : Type} (j : nat) (l : list A) (d : A) :
  nth j (remove_nth 0 l) d = nth (S j) l d.
Proof.
  unfold remove_nth. simpl. destruct l as [|x l]; [destruct j|]; reflexivity.
Qed.

(** Where a column other than the removed one is found after the
    removal, and that every row holds the same cell there. *)
Lemma get_loc_remove_nth (col c : string) (cols : list string) (i j : nat) :
  get_loc col cols = Some i -> c <> col -> get_loc c cols = Some j ->
  exists j', get_loc c (remove_nth i cols) = Some j'
             /\ forall (r : Row) d, nth j' (remove_nth i r) d = nth j r d.
Proof.
  revert i j; induction cols as [|a cols IH]; intros i j Hi Hne Hj;
    [discriminate|].
  simpl in Hi, Hj. destruct (String.eqb a col) eqn:Ea.
  - injection Hi as <-. apply String.eqb_eq in Ea. subst a.
    destruct (String.eqb col c) eqn:Ec;
      [apply String.eqb_eq in Ec; congruence|].
    destruct (get_loc c cols) as [j0|] eqn:G; [|discriminate].
    injection Hj as <-. exists j0. split.
    + unfold remove_nth. simpl. exact G.
    + intros r d. apply nth_remove_nth_0.
  - destruct (get_loc col cols) as [i0|] eqn:Gi; [|discriminate].
    injection Hi as <-. rewrite remove_nth_cons. simpl.
    destruct (String.eqb a c) eqn:Ec.
    + injection Hj as <-. exists 0%nat. split; [reflexivity|].
      intros [|x r] d; reflexivity.
    + destruct (get_loc c cols) as [j0|] eqn:G; [|discriminate].
      injection Hj as <-.
      destruct (IH i0 j0 eq_refl Hne eq_refl) as (j' & Hj' & Hnth).
      exists (S j'). rewrite Hj'. split; [reflexivity|].
      intros [|x r] d; [destruct j'; reflexivity|].
      rewrite remove_nth_cons. simpl. apply Hnth.
Qed.

Lemma remove_nth_split {A : Type} (l1 l2 : list A) (p : A) :
  remove_nth (length l1) (l1 ++ p :: l2) = l1 ++ l2.
Proof.
  induction l1 as [|x l1 IH]; [reflexivity|].
  simpl length. rewrite <- app_comm_cons, remove_nth_cons, IH. reflexivity.
Qed.

Lemma pop_gone (X X' : DataFrame) (col : string) (y : Series) :
  pop X col = Ok (y, X') -> NoDup (columns X) -> ~ In col (columns X').
Proof.
  unfold pop. destruct (get_loc col (columns X)) as [i|] eqn:Hi; [|discriminate].
  intros H Hnd. injection H as _ <-. simpl.
  apply PandasFacts.get_loc_nth in Hi.
  apply nth_error_split in Hi as (l1 & l2 & E & <-).
  rewrite E in *. rewrite remove_nth_split.
  apply NoDup_app in Hnd as (_ & Hdisj & N2).
  apply NoDup_cons in N2 as (Hnot & _).
  rewrite <- list_elem_of_In, elem_of_app. intros [H|H].
  - apply (Hdisj col H). constructor.
  - exact (Hnot H).
Qed.

(** X18. On a frame whose header has no repeated label, [pop] hands
    back the column and a frame with the same rows in which every other
    column reads as before and the popped label is no longer a column. *)
Theorem pop_spec (X X' : DataFrame) (col : string) (y : Series) :
  NoDup (columns X) ->
  pop X col = Ok (y, X') ->
  getitem X col = Ok y
  /\ length (rows X') = length (rows X)
  /\ (forall c, c <> col -> getitem X' c = getitem X c)
  /\ ~ In col (columns X').
Proof.
  intros Hnd P. pose proof (pop_gone X X' col y P Hnd) as Hgone. revert P.
  unfold pop. destruct (get_loc col (columns X)) as [i|] eqn:Hi; [|discriminate].
  intros H. injection H as <- <-. simpl.
  split; [unfold getitem; rewrite Hi; reflexivity|].
  split; [apply length_map|]. split; [|exact Hgone].
  - intros c Hne. unfold getitem at 2.
    destruct (get_loc c (columns X)) as [j|] eqn:Hj.
    + destruct (get_loc_remove_nth col c (columns X) i j Hi Hne Hj)
        as (j' & Hj' & Hnth).
      unfold getitem. simpl. rewrite Hj'. f_equal.
      rewrite map_map. apply map_ext. intros r. apply Hnth.
    + unfold getitem. simpl.
      assert (G : get_loc c (remove_nth i (columns X)) = None).
      { apply PandasFacts.get_loc_None. intros Hin.
        apply PandasFacts.get_loc_None in Hj. apply Hj.
        apply (In_remove_nth i (columns X) col c); [|exact Hne | exact Hin].
        apply PandasFacts.get_loc_nth, Hi. }
      rewrite G. reflexivity.
Qed.

Lemma pop_spec_witness :
  exists y X',
    pop Scenario.trainval "price" = Ok (y, X')
    /\ getitem Scenario.trainval "price" = Ok y
    /\ length (rows X') = length (rows Scenario.trainval).
Proof.
  assert (Hnd : NoDup (columns Scenario.trainval)).
  { apply (bool_decide_unpack _). vm_compute. exact I. }
  eexists _, _. split; [vm_compute; reflexivity|].
  refine (let H := pop_spec Scenario.trainval _ "price" _ Hnd _ in
          conj (proj1 H) (proj1 (proj2 H))).
  vm_compute; reflexivity.
Defined.

Section Run.
Variable files : gmap string string.
Variable json_load : string -> result pyvalue.
Variable read_artifact : option string -> result DataFrame.
Variable train_test_split :
  DataFrame -> Series -> option float -> option Series -> Z -> result Split.
Variable fit : InferencePipeline -> DataFrame -> Series -> result (list Q).


(** X20. A problem with the configuration ends the run before any data
    is read: a missing file raises [FileNotFoundError] for the path, a
    text that is no JSON raises the parser's exception, and a JSON value
    that is no object raises [TypeError]; this holds for every artifact
    reader, splitter and fit. *)
Theorem config_errors_first (args : Args) :
  (files !! rf_config args = None ->
   go files json_load read_artifact train_test_split fit args
   = Raise (FileNotFoundError (rf_config args)))
  /\ (forall content e,
        files !! rf_config args = Some content ->
        json_load content = Raise e ->
        go files json_load read_artifact train_test_split fit args = Raise e)
  /\ (forall content v,
        files !! rf_config args = Some content ->
        json_load content = Ok v ->
        (forall d, v <> PyDict d) ->
        go files json_load read_artifact train_test_split fit args
        = Raise TypeError).
Proof.
  unfold go, load_rf_config, open_. repeat split.
  - intros ->. reflexivity.
  - intros content e -> H. simpl. rewrite H. reflexivity.
  - intros content v -> H Hv. simpl. rewrite H. simpl.
    destruct v; try reflexivity. exfalso. eapply Hv. reflexivity.
Qed.


End Run.


Lemma config_errors_first_witness :
  MoreScenario.array_config_files
    !! rf_config (Scenario.args_of Scenario.argv_full) = Some "[]"
  /\ Scenario.json_load_table "[]" = Ok (PyList [])
  /\ go MoreScenario.array_config_files Scenario.json_load_table
       Scenario.read_trainval Scenario.split_all Scenario.fit_fixed
       (Scenario.args_of Scenario.argv_full)
     = Raise TypeError.
Proof.
  assert (H1 : MoreScenario.array_config_files
                 !! rf_config (Scenario.args_of Scenario.argv_full) = Some "[]")
    by (vm_compute; reflexivity).
  assert (H2 : Scenario.json_load_table "[]" = Ok (PyList []))
    by (vm_compute; reflexivity).
  split; [exact H1|]. split; [exact H2|].
  destruct (config_errors_first MoreScenario.array_config_files
              Scenario.json_load_table Scenario.read_trainval
              Scenario.split_all Scenario.fit_fixed
              (Scenario.args_of Scenario.argv_full)) as (_ & _ & H).
  apply (H "[]" (PyList []) H1 H2). intros d. discriminate.
Defined.


End GoMore.
